(** * Sea_Day: a shallow embedding of [src/tools/Sea_Day.py]

    The tool turns a place name and a calendar date into marine conditions
    for that local day.  This development embeds the Python functions of
    the file as Rocq functions over a model of the Python values they
    handle, and proves the properties stated for them.

    Conventions of the embedding.
    - A Python object decoded from JSON, or built by the tool before it is
      returned, is a [value]; a [dict] is an association list in insertion
      order, because [_pick_value] depends on that order.
    - A Python [float] is an IEEE 754 binary64 number, [SpecFloat.spec_float]
      with [prec = 53] and [emax = 1024].
    - A [str] is a [String.string]; its characters are the code points
      below 256.
    - A call that can raise yields a [result]; a call that also reaches the
      outside world yields an [M], a [result] with the list of the calls it
      made.
    - What the Python standard library and the network provide
      ([zoneinfo], [datetime.strptime], [urllib], [json.loads], [str()],
      the clock, the process environment) is a field of the record [Env]. *)

From Stdlib Require Import ZArith List String Ascii Bool Lia.
From Stdlib Require Import SpecFloat.
Import ListNotations.

Open Scope string_scope.
Open Scope Z_scope.

(** ** Exceptions and results *)

(** An exception carries what the tool prints of it: the name of its class
    and its message ([e.__class__.__name__] and [str(e)]). *)
Record exn : Type := Exn { exn_class : string; exn_msg : string }.

Inductive result (A : Type) : Type :=
| Ok (a : A)
| Raise (e : exn).
Arguments Ok {A} a.
Arguments Raise {A} e.

Definition rbind {A B : Type} (r : result A) (k : A -> result B) : result B :=
  match r with
  | Ok a => k a
  | Raise e => Raise e
  end.

(** [f"{e.__class__.__name__}: {e}"] *)
Definition format_exn (e : exn) : string :=
  exn_class e ++ ": " ++ exn_msg e.

(** ** Floats *)

Definition float : Type := spec_float.

Definition prec : Z := 53.
Definition emax : Z := 1024.

(** [a < b] on floats; false as soon as one side is a NaN. *)
Definition flt (a b : float) : bool := SFltb a b.

(** [float(n)] for a Python [int]: the nearest binary64 number, ties to
    even, and [OverflowError] when that would be an infinity. *)
Definition float_of_int (n : Z) : result float :=
  match binary_normalize prec emax n 0 false with
  | S754_infinity _ =>
      Raise (Exn "OverflowError" "int too large to convert to float")
  | f => Ok f
  end.

(** [float(b)] for a Python [bool]: [True] is [1.0], [False] is [0.0]. *)
Definition float_of_bool (b : bool) : float :=
  if b then S754_finite false 4503599627370496 (-52) else S754_zero false.

(** ** Python values *)

#[warnings="-register-all"]
Inductive value : Type :=
| VNone
| VBool (b : bool)
| VInt (n : Z)
| VFloat (f : float)
| VStr (s : string)
| VList (l : list value)
| VDict (d : list (string * value)).

Definition dict : Type := list (string * value).

(** [d.get(k)] with its default, on the association list. *)
Fixpoint dict_get_default (d : dict) (k : string) (dflt : value) : value :=
  match d with
  | [] => dflt
  | (k', v) :: rest => if String.eqb k' k then v else dict_get_default rest k dflt
  end.

Definition dict_get (d : dict) (k : string) : value := dict_get_default d k VNone.

(** [k in d] *)
Fixpoint dict_mem (d : dict) (k : string) : bool :=
  match d with
  | [] => false
  | (k', _) :: rest => String.eqb k' k || dict_mem rest k
  end.

(** Truth value of an object, as [if x:], [not x] and [x or y] test it. *)
Definition truthy (v : value) : bool :=
  match v with
  | VNone => false
  | VBool b => b
  | VInt n => negb (n =? 0)
  | VFloat (S754_zero _) => false
  | VFloat _ => true
  | VStr s => negb (String.eqb s "")
  | VList l => match l with [] => false | _ => true end
  | VDict d => match d with [] => false | _ => true end
  end.

(** [x or y] *)
Definition py_or (x y : value) : value := if truthy x then x else y.

(** [isinstance(x, (int, float))]; a [bool] is an [int] in Python. *)
Definition is_number (v : value) : bool :=
  match v with
  | VBool _ | VInt _ | VFloat _ => true
  | _ => false
  end.

(** [type(x).__name__] *)
Definition type_name (v : value) : string :=
  match v with
  | VNone => "NoneType"
  | VBool _ => "bool"
  | VInt _ => "int"
  | VFloat _ => "float"
  | VStr _ => "str"
  | VList _ => "list"
  | VDict _ => "dict"
  end.

Definition attribute_error (v : value) (attr : string) : exn :=
  Exn "AttributeError"
      ("'" ++ type_name v ++ "' object has no attribute '" ++ attr ++ "'").

(** [x.get(k, dflt)]: only a [dict] has the method. *)
Definition py_get_default (x : value) (k : string) (dflt : value) : result value :=
  match x with
  | VDict d => Ok (dict_get_default d k dflt)
  | _ => Raise (attribute_error x "get")
  end.

Definition py_get (x : value) (k : string) : result value :=
  py_get_default x k VNone.

(** [x[0]] *)
Definition py_first (x : value) : result value :=
  match x with
  | VList (v :: _) => Ok v
  | VList [] => Raise (Exn "IndexError" "list index out of range")
  | VStr (String c _) => Ok (VStr (String c EmptyString))
  | VStr EmptyString => Raise (Exn "IndexError" "string index out of range")
  | VDict _ => Raise (Exn "KeyError" "0")
  | _ => Raise (Exn "TypeError" ("'" ++ type_name x ++ "' object is not subscriptable"))
  end.

(** [x[k]] for a string key *)
Definition py_item (x : value) (k : string) : result value :=
  match x with
  | VDict d => if dict_mem d k then Ok (dict_get d k) else Raise (Exn "KeyError" k)
  | _ => Raise (Exn "TypeError" ("'" ++ type_name x ++ "' object is not subscriptable"))
  end.

(** The characters of a string, each a string of length one. *)
Fixpoint chars (s : string) : list value :=
  match s with
  | EmptyString => []
  | String c rest => VStr (String c EmptyString) :: chars rest
  end.

(** What [for h in x] runs through. *)
Definition py_iter (x : value) : result (list value) :=
  match x with
  | VList l => Ok l
  | VDict d => Ok (map (fun kv => VStr (fst kv)) d)
  | VStr s => Ok (chars s)
  | _ => Raise (Exn "TypeError" ("'" ++ type_name x ++ "' object is not iterable"))
  end.

(** [x != s] for a string literal [s] *)
Definition differs_from_str (x : value) (s : string) : bool :=
  match x with
  | VStr s' => negb (String.eqb s' s)
  | _ => true
  end.

(** [x is None] *)
Definition is_None (x : value) : bool :=
  match x with
  | VNone => true
  | _ => false
  end.

Definition opt_float (o : option float) : value :=
  match o with
  | Some f => VFloat f
  | None => VNone
  end.

(** [float(x)] on a number, the only case [_pick_value] reaches. *)
Definition float_of_number (v : value) : result float :=
  match v with
  | VBool b => Ok (float_of_bool b)
  | VInt n => float_of_int n
  | VFloat f => Ok f
  | _ => Raise (Exn "TypeError" "float() argument must be a string or a real number")
  end.

(** ** [_pick_value] (lines 153-161) *)

Definition _pick_value (param_obj : value) : result (option float) :=
  if is_number param_obj then
    rbind (float_of_number param_obj) (fun f => Ok (Some f))
  else
    match param_obj with
    | VDict ((first_key, first_val) :: rest) =>
        let v := dict_get ((first_key, first_val) :: rest) first_key in
        if is_number v then rbind (float_of_number v) (fun f => Ok (Some f))
        else Ok None
    | _ => Ok None
    end.

(** Decimal literals of the tests, as the binary64 numbers Python reads. *)
Definition f5_2 : float := S754_finite false 5854679515581645 (-50).
Definition f1_1 : float := S754_finite false 4953959590107546 (-52).
Definition f1_3 : float := S754_finite false 5854679515581645 (-52).

(** ** Strings *)

(** [c.isspace()] for a code point below 256. *)
Definition is_space (c : ascii) : bool :=
  let n := Z.of_nat (nat_of_ascii c) in
  ((9 <=? n) && (n <=? 13)) || ((28 <=? n) && (n <=? 32))
  || (n =? 133) || (n =? 160).

Fixpoint lstrip (s : string) : string :=
  match s with
  | String c rest => if is_space c then lstrip rest else s
  | EmptyString => EmptyString
  end.

Fixpoint rstrip (s : string) : string :=
  match s with
  | String c rest =>
      match rstrip rest with
      | EmptyString => if is_space c then EmptyString else String c EmptyString
      | rest' => String c rest'
      end
  | EmptyString => EmptyString
  end.

(** [s.strip()] *)
Definition strip (s : string) : string := rstrip (lstrip s).

(** ** Time *)

(** A naive [datetime] is a number of seconds on the wall clock, counted from
    1970-01-01 00:00:00 on that clock.  A [tzinfo] gives the UTC offset, in
    seconds, that holds at a wall-clock time (what [utcoffset] answers for a
    [datetime] with [fold=0]). *)
Record tzinfo : Type := { utcoffset : Z -> Z }.

Record datetime : Type := { wall : Z; tz_of : tzinfo }.

(** [datetime.min] and the first second after [datetime.max]:
    0001-01-01 00:00:00 and 10000-01-01 00:00:00. *)
Definition datetime_min : Z := -62135596800.
Definition datetime_end : Z := 253402300800.

Definition in_datetime_range (w : Z) : bool :=
  (datetime_min <=? w) && (w <? datetime_end).

Definition overflow_error : exn := Exn "OverflowError" "date value out of range".

(** [dt + timedelta(days=n)]: arithmetic on the wall clock, the zone kept. *)
Definition add_days (dt : datetime) (n : Z) : result datetime :=
  let w := wall dt + 86400 * n in
  if in_datetime_range w then Ok {| wall := w; tz_of := tz_of dt |}
  else Raise overflow_error.

(** [int(dt.astimezone(utc).timestamp())] for an aware [dt]: the wall
    clock less the offset that holds at it. *)
Definition utc_timestamp (dt : datetime) : result Z :=
  let t := wall dt - utcoffset (tz_of dt) (wall dt) in
  if in_datetime_range t then Ok t else Raise overflow_error.

(** ** The outside world *)

Record Env : Type := {
  (** [os.getenv(name)], [None] when the variable is unset *)
  getenv : string -> option string;
  (** [_date.today().isoformat()] *)
  today_iso : string;
  (** whether [from zoneinfo import ZoneInfo] succeeded (lines 17-20) *)
  zoneinfo_available : bool;
  (** [ZoneInfo(name)], which raises for a name the database lacks *)
  ZoneInfo : string -> result tzinfo;
  (** [datetime.strptime(s, "%Y-%m-%d")]: the day parsed, as a number of
      days from 1970-01-01, or [ValueError] *)
  strptime_ymd : string -> result Z;
  (** lines 253-255: [fromisoformat], [astimezone] and [strftime] on the
      [time] field of an hour, in the zone named *)
  utc_iso_to_local : value -> string -> result string;
  (** [urllib.parse.urlencode] *)
  urlencode : list (string * value) -> string;
  (** lines 31-36: the request sent and the body read and decoded *)
  urlopen_read : string -> list (string * string) -> Z -> result string;
  (** [json.loads] *)
  json_loads : string -> result value;
  (** [str(x)], as an f-string formats an object *)
  py_str : value -> string;
  (** [float(s)] for a [str] *)
  float_of_str : string -> result float
}.

(** ** Computations that reach the outside world *)

(** What a run leaves in its trace: each call of
    [_day_range_to_utc_timestamps], with its arguments, and each request
    [_http_get_json] sends, in the order they happen. *)
Inductive event : Type :=
| CallDayRange (date tz_name : string)
| HttpGet (url : string) (headers : list (string * string)) (timeout_sec : Z).

Definition M (A : Type) : Type := (list event * result A)%type.

Definition ret {A : Type} (a : A) : M A := ([], Ok a).

Definition raise {A : Type} (e : exn) : M A := ([], Raise e).

Definition bind {A B : Type} (m : M A) (k : A -> M B) : M B :=
  match m with
  | (l, Ok a) => let (l', r) := k a in ((l ++ l')%list, r)
  | (l, Raise e) => (l, Raise e)
  end.

Definition lift {A : Type} (r : result A) : M A := ([], r).

Definition tell (ev : event) : M unit := ([ev], Ok tt).

(** [try: x = m except Exception as e: ...], the exception handed to the
    code that follows instead of being raised *)
Definition attempt {A : Type} (m : M A) : M (exn + A) :=
  match m with
  | (l, Ok a) => (l, Ok (inr a))
  | (l, Raise e) => (l, Ok (inl e))
  end.

(** [try: m except Exception as e: handler e] *)
Definition try_except {A : Type} (m : M A) (handler : exn -> M A) : M A :=
  match m with
  | (l, Ok a) => (l, Ok a)
  | (l, Raise e) => let (l', r) := handler e in ((l ++ l')%list, r)
  end.

Declare Scope py_scope.
Delimit Scope py_scope with py.
Notation "x <- m ;; k" := (bind m (fun x => k))
  (at level 61, m at next level, right associativity) : py_scope.
Notation "' p <- m ;; k" := (bind m (fun x => match x with p => k end))
  (at level 61, p pattern, m at next level, right associativity) : py_scope.
Notation "m ;;; k" := (bind m (fun _ => k))
  (at level 61, right associativity) : py_scope.
Open Scope py_scope.

Definition trace {A : Type} (m : M A) : list event := fst m.
Definition outcome {A : Type} (m : M A) : result A := snd m.

(** ** Endpoints (lines 23-25) *)

Definition STORMGLASS_WEATHER_POINT : string :=
  "https://api.stormglass.io/v2/weather/point".
Definition STORMGLASS_TIDE_EXTREMES_POINT : string :=
  "https://api.stormglass.io/v2/tide/extremes/point".
Definition GOOGLE_GEOCODE_ENDPOINT : string :=
  "https://maps.googleapis.com/maps/api/geocode/json".

Section Program.

Variable W : Env.

(** ** [_http_get_json] (lines 28-37) *)

Definition _http_get_json (url : string) (headers : list (string * string))
    (timeout_sec : Z) : M value :=
  tell (HttpGet url headers timeout_sec) ;;;
  raw <- lift (urlopen_read W url headers timeout_sec) ;;
  lift (json_loads W raw).

(** ** [_day_range_to_utc_timestamps] (lines 40-50) *)

Definition _day_range_to_utc_timestamps (date_yyyy_mm_dd tz_name : string)
    : M (Z * Z) :=
  tell (CallDayRange date_yyyy_mm_dd tz_name) ;;;
  if negb (zoneinfo_available W) then
    raise (Exn "RuntimeError"
      "zoneinfo not available. Use Python 3.9+ or provide timestamps directly.")
  else
    tz <- lift (ZoneInfo W tz_name) ;;
    day <- lift (strptime_ymd W date_yyyy_mm_dd) ;;
    let day_start_local := {| wall := 86400 * day; tz_of := tz |} in
    next_day_start_local <- lift (add_days day_start_local 1) ;;
    _ <- lift (ZoneInfo W "UTC") ;;
    start_utc <- lift (utc_timestamp day_start_local) ;;
    _ <- lift (ZoneInfo W "UTC") ;;
    end_utc <- lift (utc_timestamp next_day_start_local) ;;
    ret (start_utc, end_utc).

(** ** [_google_geocode_place] (lines 53-111) *)

Definition _google_geocode_place (place api_key language region : string)
    (timeout_sec : Z) : M value :=
  let place := strip place in
  if String.eqb place "" then
    ret (VDict [("ok", VBool false); ("error", VStr "place is required")])
  else if String.eqb api_key "" then
    ret (VDict [("ok", VBool false);
                ("error", VStr "Missing GOOGLE_MAPS_API_KEY env var")])
  else
    let params := [("address", VStr place); ("key", VStr api_key);
                   ("language", VStr language); ("region", VStr region)] in
    let url := GOOGLE_GEOCODE_ENDPOINT ++ "?" ++ urlencode W params in
    fetched <- attempt (_http_get_json url [] timeout_sec) ;;
    match fetched with
    | inl e =>
        ret (VDict [("ok", VBool false);
                    ("error", VStr ("HTTP/parse error: " ++ format_exn e))])
    | inr data =>
        status <- lift (py_get_default data "status" (VStr "UNKNOWN")) ;;
        if differs_from_str status "OK" then
          error_message <- lift (py_get data "error_message") ;;
          ret (VDict [("ok", VBool false); ("query", VStr place);
                      ("status", status);
                      ("error", py_or error_message
                         (VStr ("Geocoding failed: " ++ py_str W status)))])
        else
          results_field <- lift (py_get data "results") ;;
          let results := py_or results_field (VList []) in
          if negb (truthy results) then
            ret (VDict [("ok", VBool false); ("query", VStr place);
                        ("status", status); ("error", VStr "No results")])
          else
            top <- lift (py_first results) ;;
            geometry_field <- lift (py_get_default top "geometry" (VDict [])) ;;
            let geometry := py_or geometry_field (VDict []) in
            location_field <- lift (py_get_default geometry "location" (VDict [])) ;;
            let location := py_or location_field (VDict []) in
            lat <- lift (py_get location "lat") ;;
            lng <- lift (py_get location "lng") ;;
            if is_None lat || is_None lng then
              ret (VDict [("ok", VBool false); ("query", VStr place);
                          ("status", status);
                          ("error", VStr "Missing lat/lng in response")])
            else
              formatted_address <- lift (py_get top "formatted_address") ;;
              ret (VDict [("ok", VBool true); ("lat", lat); ("lng", lng);
                          ("formatted_address", formatted_address)])
    end.

(** ** [_stormglass_weather] (lines 114-128) *)

Definition _stormglass_weather (lat lng : float) (start_utc end_utc : Z)
    (api_key : string) (timeout_sec : Z) : M value :=
  let params := "swellHeight,waterTemperature,windSpeed" in
  let qs := urlencode W [("lat", VFloat lat); ("lng", VFloat lng);
                         ("params", VStr params);
                         ("start", VInt start_utc); ("end", VInt end_utc)] in
  let url := STORMGLASS_WEATHER_POINT ++ "?" ++ qs in
  let headers := [("Authorization", api_key)] in
  _http_get_json url headers timeout_sec.

(** ** [_stormglass_tide_extremes] (lines 131-144) *)

Definition _stormglass_tide_extremes (lat lng : float) (start_utc end_utc : Z)
    (api_key : string) (timeout_sec : Z) : M value :=
  let qs := urlencode W [("lat", VFloat lat); ("lng", VFloat lng);
                         ("start", VInt start_utc); ("end", VInt end_utc)] in
  let url := STORMGLASS_TIDE_EXTREMES_POINT ++ "?" ++ qs in
  let headers := [("Authorization", api_key)] in
  _http_get_json url headers timeout_sec.

(** ** [_safe_minmax] (lines 147-150) *)

(** [min] and [max] of a non-empty list, as the builtins run: the first
    item is kept until a later one compares below (above) it. *)
Definition py_min (first : float) (others : list float) : float :=
  fold_left (fun best item => if flt item best then item else best) others first.

Definition py_max (first : float) (others : list float) : float :=
  fold_left (fun best item => if flt best item then item else best) others first.

Definition _safe_minmax (vals : list float) : value :=
  match vals with
  | [] => VNone
  | first :: others =>
      VDict [("min", VFloat (py_min first others));
             ("max", VFloat (py_max first others))]
  end.

(** ** [Tools] (lines 164-296) *)

Record Tools : Type := { storm_key : string; google_key : string }.

Definition getenv_default (name dflt : string) : string :=
  match getenv W name with
  | Some v => v
  | None => dflt
  end.

Definition Tools__init__ : Tools :=
  {| storm_key := strip (getenv_default "STORMGLASS_API_KEY" "");
     google_key := strip (getenv_default "GOOGLE_MAPS_API_KEY" "") |}.

(** [float(x)] on a field of the geocoding result *)
Definition py_float (x : value) : result float :=
  match x with
  | VStr s => float_of_str W s
  | VNone | VList _ | VDict _ =>
      Raise (Exn "TypeError"
        ("float() argument must be a string or a real number, not '"
           ++ type_name x ++ "'"))
  | _ => float_of_number x
  end.

(** The lists the loop of [sea_day] fills (lines 241-244). *)
Record hours_acc : Type := {
  hourly : list value;
  wave_vals : list float;
  wind_vals : list float;
  water_temp_vals : list float
}.

Definition append_some (vals : list float) (v : option float) : list float :=
  match v with
  | Some f => (vals ++ [f])%list
  | None => vals
  end.

(** The body of the loop over the hours (lines 247-281). *)
Definition hour_body (timezone : string) (acc : hours_acc) (h : value)
    : result hours_acc :=
  rbind (py_get h "time") (fun utc_time_str =>
  let local_time_str :=
    if truthy utc_time_str then
      match utc_iso_to_local W utc_time_str timezone with
      | Ok s => VStr s
      | Raise _ => utc_time_str
      end
    else utc_time_str in
  rbind (py_get h "tide") (fun tide_field =>
  rbind (_pick_value tide_field) (fun tide_v =>
  rbind (py_get h "swellHeight") (fun wave_field =>
  rbind (_pick_value wave_field) (fun wave_v =>
  rbind (py_get h "waterTemperature") (fun wt_field =>
  rbind (_pick_value wt_field) (fun wt_v =>
  rbind (py_get h "windSpeed") (fun wind_field =>
  rbind (_pick_value wind_field) (fun wind_v =>
  Ok {| wave_vals := append_some (wave_vals acc) wave_v;
        water_temp_vals := append_some (water_temp_vals acc) wt_v;
        wind_vals := append_some (wind_vals acc) wind_v;
        hourly := (hourly acc ++
          [VDict [("time_local", local_time_str);
                  ("time_utc", utc_time_str);
                  ("tide", opt_float tide_v);
                  ("swellHeight", opt_float wave_v);
                  ("waterTemperature", opt_float wt_v);
                  ("windSpeed", opt_float wind_v)]])%list |}))))))))).

(** [for h in hours: ...] *)
Fixpoint for_hours (timezone : string) (hours : list value) (acc : hours_acc)
    : result hours_acc :=
  match hours with
  | [] => Ok acc
  | h :: rest => rbind (hour_body timezone acc h) (for_hours timezone rest)
  end.

Definition sea_day (self : Tools) (date place timezone : string)
    (timeout_sec : Z) : M value :=
  let date := strip date in
  let date := if String.eqb date "" then today_iso W else date in
  if String.eqb (storm_key self) "" then
    ret (VDict [("ok", VBool false);
                ("error", VStr "Missing STORMGLASS_API_KEY env var")])
  else
    (* time range *)
    first_try <- attempt (_day_range_to_utc_timestamps date timezone) ;;
    time_range <-
      match first_try with
      | inr (start_utc, end_utc) => ret (inr (date, start_utc, end_utc))
      | inl _ =>
          let date := today_iso W in
          second_try <- attempt (_day_range_to_utc_timestamps date timezone) ;;
          match second_try with
          | inr (start_utc, end_utc) => ret (inr (date, start_utc, end_utc))
          | inl e =>
              ret (inl (VDict [("ok", VBool false);
                               ("stage", VStr "time_range");
                               ("error", VStr (format_exn e))]))
          end
      end ;;
    match time_range with
    | inl failure => ret failure
    | inr (date, start_utc, end_utc) =>
    geocode_info <- _google_geocode_place place (google_key self) "zh-TW" "tw"
                      (Z.min 10 timeout_sec) ;;
    geocode_ok <- lift (py_get geocode_info "ok") ;;
    if negb (truthy geocode_ok) then
      geocode_error <- lift (py_get_default geocode_info "error"
                               (VStr "Geocoding failed")) ;;
      ret (VDict [("ok", VBool false); ("stage", VStr "geocoding");
                  ("error", geocode_error); ("geocode", geocode_info)])
    else
    lat <- lift (rbind (py_item geocode_info "lat") py_float) ;;
    lng <- lift (rbind (py_item geocode_info "lng") py_float) ;;
    (* queries *)
    fetched <- attempt (_stormglass_weather lat lng start_utc end_utc
                          (storm_key self) timeout_sec) ;;
    match fetched with
    | inl e =>
        ret (VDict [("ok", VBool false); ("stage", VStr "stormglass_weather");
                    ("error", VStr (format_exn e))])
    | inr weather =>
    extremes <- try_except
                  (_stormglass_tide_extremes lat lng start_utc end_utc
                     (storm_key self) timeout_sec)
                  (fun e => ret (VDict [("error", VStr (format_exn e));
                                        ("data", VNone)])) ;;
    hours_field <- lift (py_get weather "hours") ;;
    let hours := py_or hours_field (VList []) in
    items <- lift (py_iter hours) ;;
    acc <- lift (for_hours timezone items
                   {| hourly := []; wave_vals := []; wind_vals := [];
                      water_temp_vals := [] |}) ;;
    meta <- lift (py_get weather "meta") ;;
    ret (VDict
      [("ok", VBool true);
       ("query", VDict [("date", VStr date); ("timezone", VStr timezone)]);
       ("location", VDict [("lat", VFloat lat); ("lng", VFloat lng)]);
       ("range_utc", VDict [("start", VInt start_utc); ("end", VInt end_utc)]);
       ("summary", VDict
          [("swellHeight", _safe_minmax (wave_vals acc));
           ("waterTemperature", _safe_minmax (water_temp_vals acc));
           ("windSpeed", _safe_minmax (wind_vals acc))]);
       ("hourly", VList (hourly acc));
       ("tide_extremes", extremes);
       ("raw", VDict [("stormglass_weather_meta", meta)])])
    end
    end.

End Program.

(** ** Vocabulary of the properties *)

(** The UTC instant of a wall-clock time in a zone. *)
Definition utc_of_wall (tz : tzinfo) (w : Z) : Z := w - utcoffset tz w.

(** Local midnight of a day, on the wall clock. *)
Definition midnight (day : Z) : Z := 86400 * day.

(** The length, in seconds of UTC, of the local day [day]: from its local
    midnight to the next local midnight. *)
Definition local_day_duration (tz : tzinfo) (day : Z) : Z :=
  utc_of_wall tz (midnight (day + 1)) - utc_of_wall tz (midnight day).

(** A date and a zone name the resolver accepts: the zone database is
    there and knows the name, the date parses, and the day, the next
    midnight and both UTC instants are within what [datetime] can hold. *)
Definition valid_day (W : Env) (date tz_name : string) (tz : tzinfo) (day : Z)
    : Prop :=
  zoneinfo_available W = true /\
  ZoneInfo W tz_name = Ok tz /\
  (exists utc, ZoneInfo W "UTC" = Ok utc) /\
  strptime_ymd W date = Ok day /\
  in_datetime_range (midnight (day + 1)) = true /\
  in_datetime_range (utc_of_wall tz (midnight day)) = true /\
  in_datetime_range (utc_of_wall tz (midnight (day + 1))) = true.

(** The date [sea_day] first tries: the argument stripped, or today's
    date when that is empty (lines 182-184). *)
Definition first_date (W : Env) (date : string) : string :=
  if String.eqb (strip date) "" then today_iso W else strip date.

(** The time range [sea_day] works with (lines 190-202): that of the first
    date when it resolves, and otherwise that of today's date when that
    resolves.  [l] lists the calls made on the way. *)
Definition resolves_to (W : Env) (date timezone : string)
    (date' : string) (start_utc end_utc : Z) (l : list event) : Prop :=
  (exists l1,
      _day_range_to_utc_timestamps W date timezone = (l1, Ok (start_utc, end_utc)) /\
      date' = date /\ l = l1) \/
  (exists l1 e1 l2,
      _day_range_to_utc_timestamps W date timezone = (l1, Raise e1) /\
      _day_range_to_utc_timestamps W (today_iso W) timezone
        = (l2, Ok (start_utc, end_utc)) /\
      date' = today_iso W /\ l = (l1 ++ l2)%list).

(** What [_google_geocode_place] returns on success (lines 106-111). *)
Definition geocode_success (lat lng formatted_address : value) : value :=
  VDict [("ok", VBool true); ("lat", lat); ("lng", lng);
         ("formatted_address", formatted_address)].

(** The geocoding stage of [sea_day] succeeds (lines 204-219): the place is
    found and its coordinates convert to floats. *)
Definition geocodes_to (W : Env) (self : Tools) (place : string)
    (timeout_sec : Z) (lat lng : float) (l : list event) : Prop :=
  exists lat_v lng_v formatted_address,
    _google_geocode_place W place (google_key self) "zh-TW" "tw"
      (Z.min 10 timeout_sec)
      = (l, Ok (geocode_success lat_v lng_v formatted_address)) /\
    py_float W lat_v = Ok lat /\ py_float W lng_v = Ok lng.

(** The parameters read from an hour of the weather payload. *)
Definition hour_params : list string :=
  ["tide"; "swellHeight"; "waterTemperature"; "windSpeed"].

(** An [int] that [float] converts. *)
Definition int_fits (n : Z) : bool :=
  match float_of_int n with
  | Ok _ => true
  | Raise _ => false
  end.

(** A parameter value as the weather endpoint documents it, a number or a
    mapping from sources to numbers, or anything else that holds no [int]
    too large for a float where [_pick_value] looks. *)
Definition param_fits (v : value) : bool :=
  match v with
  | VInt n => int_fits n
  | VDict ((_, VInt n) :: _) => int_fits n
  | _ => true
  end.

(** An hour of the weather payload: a mapping whose parameters fit. *)
Definition hour_fits (h : value) : bool :=
  match h with
  | VDict d => forallb (fun k => param_fits (dict_get d k)) hour_params
  | _ => false
  end.

(** The [hours] field of a weather payload as the endpoint documents it:
    absent, null or otherwise false, or a list of hours. *)
Definition hours_fit (hours_field : value) : bool :=
  match py_or hours_field (VList []) with
  | VList l => forallb hour_fits l
  | _ => false
  end.

(** The hours [sea_day] runs through. *)
Definition hours_of (hours_field : value) : list value :=
  match py_or hours_field (VList []) with
  | VList l => l
  | _ => []
  end.

(** The sample an hour holds for a parameter, if any. *)
Definition sample (key : string) (h : value) : option float :=
  match h with
  | VDict d =>
      match _pick_value (dict_get d key) with
      | Ok o => o
      | Raise _ => None
      end
  | _ => None
  end.

Definition sample_list (o : option float) : list float :=
  match o with
  | Some f => [f]
  | None => []
  end.

(** The non-missing values of a parameter over the hours, in their order. *)
Definition samples (key : string) (hours : list value) : list float :=
  flat_map (fun h => sample_list (sample key h)) hours.

(** The time shown for an hour: the local time when the conversion works,
    the field as it came otherwise. *)
Definition shown_time (W : Env) (timezone : string) (utc_time_str : value)
    : value :=
  if truthy utc_time_str then
    match utc_iso_to_local W utc_time_str timezone with
    | Ok s => VStr s
    | Raise _ => utc_time_str
    end
  else utc_time_str.

(** The hourly record of an hour. *)
Definition hour_record (W : Env) (timezone : string) (h : value) : value :=
  match h with
  | VDict d =>
      VDict [("time_local", shown_time W timezone (dict_get d "time"));
             ("time_utc", dict_get d "time");
             ("tide", opt_float (sample "tide" h));
             ("swellHeight", opt_float (sample "swellHeight" h));
             ("waterTemperature", opt_float (sample "waterTemperature" h));
             ("windSpeed", opt_float (sample "windSpeed" h))]
  | _ => VNone
  end.

(** The summary of the success envelope, over the hours given. *)
Definition summary_of (hours : list value) : value :=
  VDict [("swellHeight", _safe_minmax (samples "swellHeight" hours));
         ("waterTemperature", _safe_minmax (samples "waterTemperature" hours));
         ("windSpeed", _safe_minmax (samples "windSpeed" hours))].

(** The envelope holds [v] under the key [k]. *)
Definition field_is (env : value) (k : string) (v : value) : Prop :=
  match env with
  | VDict d => dict_mem d k = true /\ dict_get d k = v
  | _ => False
  end.

(** The envelope holds no field [k]. *)
Definition has_no_field (env : value) (k : string) : Prop :=
  match env with
  | VDict d => dict_mem d k = false
  | _ => False
  end.

(** What stands for the tide extremes when their fetch raised (line 238). *)
Definition tide_error_payload (e : exn) : value :=
  VDict [("error", VStr (format_exn e)); ("data", VNone)].

(** The tide extremes of the envelope, from the outcome of their fetch. *)
Definition extremes_of (r : result value) : value :=
  match r with
  | Ok payload => payload
  | Raise e => tide_error_payload e
  end.

(** The success envelope (lines 283-296), from the hours of the weather
    payload. *)
Definition success_envelope (W : Env) (date timezone : string)
    (lat lng : float) (start_utc end_utc : Z) (hours : list value)
    (extremes meta : value) : value :=
  VDict
    [("ok", VBool true);
     ("query", VDict [("date", VStr date); ("timezone", VStr timezone)]);
     ("location", VDict [("lat", VFloat lat); ("lng", VFloat lng)]);
     ("range_utc", VDict [("start", VInt start_utc); ("end", VInt end_utc)]);
     ("summary", summary_of hours);
     ("hourly", VList (map (hour_record W timezone) hours));
     ("tide_extremes", extremes);
     ("raw", VDict [("stormglass_weather_meta", meta)])].

(** [v] is the summary entry of the values [vals]: null when there are
    none, and otherwise [{min, max}] where both are among the values, no
    value compares below [min] and [max] compares below no value. *)
Definition minmax_of (vals : list float) (v : value) : Prop :=
  match vals with
  | [] => v = VNone
  | _ :: _ =>
      exists lo hi,
        v = VDict [("min", VFloat lo); ("max", VFloat hi)] /\
        In lo vals /\ In hi vals /\
        forall x, In x vals -> flt x lo = false /\ flt hi x = false
  end.

(** The events of a trace that are calls of the range resolver. *)
Definition is_day_range_call (ev : event) : bool :=
  match ev with
  | CallDayRange _ _ => true
  | HttpGet _ _ _ => false
  end.

(** A failure envelope: [{ok: false, stage, error}]. *)
Definition failure_at (env : value) (stage : string) : Prop :=
  field_is env "ok" (VBool false) /\
  field_is env "stage" (VStr stage) /\
  exists err, field_is env "error" err.

(** A success envelope for the date and the range given. *)
Definition success_for (env : value) (date timezone : string)
    (start_utc end_utc : Z) : Prop :=
  field_is env "ok" (VBool true) /\
  field_is env "query" (VDict [("date", VStr date); ("timezone", VStr timezone)]) /\
  field_is env "range_utc" (VDict [("start", VInt start_utc); ("end", VInt end_utc)]).

(** ** A concrete world

    A small instance of [Env], on which the functions above run: a zone
    database of three zones, a parser for dates written [YYYY-MM-DD],
    and three canned HTTP exchanges, one per endpoint.  The general
    theorems hold for every [Env]; this one shows that their hypotheses
    can be met and gives the concrete runs. *)

Module Demo.

Definition digit (c : ascii) : option Z :=
  let n := Z.of_nat (nat_of_ascii c) in
  if (48 <=? n) && (n <=? 57) then Some (n - 48) else None.

(** The number a string of digits writes. *)
Fixpoint number_of (s : string) (acc : Z) : option Z :=
  match s with
  | EmptyString => Some acc
  | String c rest =>
      match digit c with
      | Some d => number_of rest (10 * acc + d)
      | None => None
      end
  end.

Fixpoint split_dash (s : string) (cur : string) : list string :=
  match s with
  | EmptyString => [cur]
  | String c rest =>
      if Ascii.eqb c "-"%char then cur :: split_dash rest EmptyString
      else split_dash rest (cur ++ String c EmptyString)
  end.

Definition is_leap (y : Z) : bool :=
  ((y mod 4 =? 0) && negb (y mod 100 =? 0)) || (y mod 400 =? 0).

Definition days_in_month (y m : Z) : Z :=
  if m =? 2 then (if is_leap y then 29 else 28)
  else if (m =? 4) || (m =? 6) || (m =? 9) || (m =? 11) then 30
  else 31.

(** Days from 1970-01-01 to the civil date [y-m-d], proleptic Gregorian. *)
Definition days_from_civil (y m d : Z) : Z :=
  let y' := if m <=? 2 then y - 1 else y in
  let era := y' / 400 in
  let yoe := y' - era * 400 in
  let doy := (153 * (if 2 <? m then m - 3 else m + 9) + 2) / 5 + d - 1 in
  let doe := yoe * 365 + yoe / 4 - yoe / 100 + doy in
  era * 146097 + doe - 719468.

Definition value_error (s : string) : exn :=
  Exn "ValueError" ("time data '" ++ s ++ "' does not match format '%Y-%m-%d'").

Definition parse_ymd (s : string) : result Z :=
  match split_dash s EmptyString with
  | [ys; ms; ds] =>
      if (String.length ys =? 4)%nat
         && (1 <=? String.length ms)%nat && (String.length ms <=? 2)%nat
         && (1 <=? String.length ds)%nat && (String.length ds <=? 2)%nat
      then
        match number_of ys 0, number_of ms 0, number_of ds 0 with
        | Some y, Some m, Some d =>
            if (1 <=? y) && (1 <=? m) && (m <=? 12)
               && (1 <=? d) && (d <=? days_in_month y m)
            then Ok (days_from_civil y m d)
            else Raise (value_error s)
        | _, _, _ => Raise (value_error s)
        end
      else Raise (value_error s)
  | _ => Raise (value_error s)
  end.

Definition utc : tzinfo := {| utcoffset := fun _ => 0 |}.

Definition taipei : tzinfo := {| utcoffset := fun _ => 28800 |}.

(** New York in 2024: daylight time from 2024-03-10 03:00 to
    2024-11-03 02:00 on the wall clock, standard time otherwise. *)
Definition new_york : tzinfo :=
  {| utcoffset := fun w =>
       if (19792 * 86400 + 10800 <=? w) && (w <? 20030 * 86400 + 7200)
       then -14400 else -18000 |}.

Definition zone_db (name : string) : result tzinfo :=
  if String.eqb name "UTC" then Ok utc
  else if String.eqb name "Asia/Taipei" then Ok taipei
  else if String.eqb name "America/New_York" then Ok new_york
  else Raise (Exn "ZoneInfoNotFoundError" ("No time zone found with key " ++ name)).

Definition show (v : value) : string :=
  match v with
  | VStr s => s
  | _ => "<" ++ type_name v ++ ">"
  end.

Fixpoint encode (params : list (string * value)) : string :=
  match params with
  | [] => ""
  | [(k, v)] => k ++ "=" ++ show v
  | (k, v) :: rest => k ++ "=" ++ show v ++ "&" ++ encode rest
  end.

(** The body served for an endpoint is its name; [json_loads] decodes it
    into the payload chosen for that endpoint. *)
Definition serve (name : string) (payload : result value) : result string :=
  match payload with
  | Ok _ => Ok name
  | Raise e => Raise e
  end.

Definition open_url (geo weather tide : result value)
    (url : string) (headers : list (string * string)) (timeout_sec : Z)
    : result string :=
  if String.prefix GOOGLE_GEOCODE_ENDPOINT url then serve "geocode" geo
  else if String.prefix STORMGLASS_WEATHER_POINT url then serve "weather" weather
  else if String.prefix STORMGLASS_TIDE_EXTREMES_POINT url then serve "tide" tide
  else Raise (Exn "URLError" "unknown host").

Definition decode (geo weather tide : result value) (raw : string)
    : result value :=
  if String.eqb raw "geocode" then geo
  else if String.eqb raw "weather" then weather
  else if String.eqb raw "tide" then tide
  else Raise (Exn "JSONDecodeError" "Expecting value").

Definition to_local (t : value) (tz_name : string) : result string :=
  match t with
  | VStr s =>
      if String.eqb s "2026-11-03T16:00:00+00:00" && String.eqb tz_name "Asia/Taipei"
      then Ok "2026-11-04 00:00:00"
      else Raise (Exn "ValueError" ("Invalid isoformat string: " ++ s))
  | _ => Raise (attribute_error t "replace")
  end.

Definition environ (storm google : option string) (name : string) : option string :=
  if String.eqb name "STORMGLASS_API_KEY" then storm
  else if String.eqb name "GOOGLE_MAPS_API_KEY" then google
  else None.

Definition env (storm google : option string) (geo weather tide : result value)
    : Env :=
  {| getenv := environ storm google;
     today_iso := "2026-11-04";
     zoneinfo_available := true;
     ZoneInfo := zone_db;
     strptime_ymd := parse_ymd;
     utc_iso_to_local := to_local;
     urlencode := encode;
     urlopen_read := open_url geo weather tide;
     json_loads := decode geo weather tide;
     py_str := show;
     float_of_str := fun s =>
       Raise (Exn "ValueError" ("could not convert string to float: " ++ s)) |}.

Definition timeout : exn := Exn "TimeoutError" "timed out".

End Demo.

(** Payloads of the three endpoints. *)
Definition demo_lat : float := S754_finite false 6177897231338491 (-48).
Definition demo_lng : float := S754_finite false 8499115811155005 (-46).

Definition demo_geo : value :=
  VDict [("results",
          VList [VDict [("formatted_address", VStr "Kenting, Pingtung, Taiwan");
                        ("geometry",
                         VDict [("location",
                                 VDict [("lat", VFloat demo_lat);
                                        ("lng", VFloat demo_lng)])])]]);
         ("status", VStr "OK")].

Definition f1_0 : float := S754_finite false 4503599627370496 (-52).
Definition f2_5 : float := S754_finite false 5629499534213120 (-51).
Definition f0_8 : float := S754_finite false 7205759403792794 (-53).
Definition f26_4 : float := S754_finite false 7430939385161318 (-48).
Definition f4_2 : float := S754_finite false 4728779608739021 (-50).

(** Four hours with the wave heights 1.0, 2.5, none and 0.8. *)
Definition demo_hours : list value :=
  [VDict [("time", VStr "2026-11-03T16:00:00+00:00");
          ("swellHeight", VDict [("sg", VFloat f1_0); ("noaa", VFloat f1_3)]);
          ("waterTemperature", VDict [("sg", VFloat f26_4)]);
          ("windSpeed", VDict [("sg", VFloat f4_2)])];
   VDict [("time", VStr "2026-11-03T17:00:00+00:00");
          ("swellHeight", VFloat f2_5)];
   VDict [("time", VStr "2026-11-03T18:00:00+00:00");
          ("swellHeight", VNone)];
   VDict [("time", VStr "2026-11-03T19:00:00+00:00");
          ("swellHeight", VDict [("sg", VFloat f0_8)])]].

Definition demo_meta : value := VDict [("dailyQuota", VInt 10)].

Definition demo_weather : value :=
  VDict [("hours", VList demo_hours); ("meta", demo_meta)].

Definition demo_weather_no_hours : value := VDict [("meta", demo_meta)].


Definition demo_tide : value := VDict [("data", VList [])].

Definition demo_tools : Tools := {| storm_key := "sg-key"; google_key := "g-key" |}.

Definition demo_keys_env (geo weather tide : result value) : Env :=
  Demo.env (Some "sg-key") (Some "g-key") geo weather tide.

(** A world where all three endpoints answer. *)
Definition fair_env : Env := demo_keys_env (Ok demo_geo) (Ok demo_weather) (Ok demo_tide).


(** A world where the weather endpoint times out. *)
Definition no_weather_env : Env :=
  demo_keys_env (Ok demo_geo) (Raise Demo.timeout) (Ok demo_tide).

(** A world whose weather payload has no hours. *)
Definition no_hours_env : Env :=
  demo_keys_env (Ok demo_geo) (Ok demo_weather_no_hours) (Ok demo_tide).


(** A geocoding payload whose only result has no location. *)
Definition demo_geo_no_location : value :=
  VDict [("results",
          VList [VDict [("formatted_address", VStr "Kenting, Pingtung, Taiwan")]]);
         ("status", VStr "OK")].

Definition no_location_env : Env :=
  demo_keys_env (Ok demo_geo_no_location) (Ok demo_weather) (Ok demo_tide).

(** A world whose geocoding endpoint answers with a JSON list. *)
Definition list_geo_env : Env :=
  demo_keys_env (Ok (VList [])) (Ok demo_weather) (Ok demo_tide).

(** The envelope a run returned, and its fields. *)
Definition envelope_of (run : M value) : value :=
  match outcome run with
  | Ok env => env
  | Raise _ => VNone
  end.

Definition field (env : value) (k : string) : value :=
  match env with
  | VDict d => dict_get d k
  | _ => VNone
  end.




(** A world where every request times out. *)
Definition quiet_env : Env :=
  Demo.env None None (Raise Demo.timeout) (Raise Demo.timeout) (Raise Demo.timeout).


(** ** Vocabulary of the further properties *)

(** A string that does not begin with whitespace. *)
Definition no_leading_space (s : string) : Prop :=
  match s with
  | String c _ => is_space c = false
  | EmptyString => True
  end.

(** The URL of the geocoding request for a place already stripped. *)
Definition geocode_url (W : Env) (place api_key language region : string) : string :=
  GOOGLE_GEOCODE_ENDPOINT ++ "?" ++
  urlencode W [("address", VStr place); ("key", VStr api_key);
               ("language", VStr language); ("region", VStr region)].

(** What [_google_geocode_place] returns: a success with both coordinates,
    or a failure with an error and no coordinate. *)
Definition geocode_result (r : value) : Prop :=
  exists d, r = VDict d /\
    ((dict_get d "ok" = VBool true /\
      map fst d = ["ok"; "lat"; "lng"; "formatted_address"] /\
      dict_get d "lat" <> VNone /\ dict_get d "lng" <> VNone) \/
     (dict_get d "ok" = VBool false /\ dict_mem d "error" = true /\
      dict_mem d "lat" = false /\ dict_mem d "lng" = false)).

(** The events of a trace that are requests. *)
Definition is_http (ev : event) : bool := negb (is_day_range_call ev).

(** A request to a Storm Glass endpoint: the key travels in the
    [Authorization] header. *)
Definition is_stormglass_get (endpoint key : string) (timeout_sec : Z)
    (ev : event) : Prop :=
  exists qs, ev = HttpGet (endpoint ++ "?" ++ qs) [("Authorization", key)] timeout_sec.

(** The requests of a run of [sea_day], in their order: the geocoding
    request first, then the weather request, then the tide request, each
    present only if the one before is. *)
Definition requests_in_order (W : Env) (self : Tools) (place : string)
    (timeout_sec : Z) (gets : list event) : Prop :=
  let g := HttpGet (geocode_url W (strip place) (google_key self) "zh-TW" "tw")
             [] (Z.min 10 timeout_sec) in
  gets = [] \/ gets = [g] \/
  exists w, is_stormglass_get STORMGLASS_WEATHER_POINT (storm_key self) timeout_sec w /\
    (gets = [g; w] \/
     exists td, is_stormglass_get STORMGLASS_TIDE_EXTREMES_POINT (storm_key self)
                  timeout_sec td /\
                gets = [g; w; td]).

(** The keys of an envelope, in their order. *)
Definition envelope_keys (env : value) : list string :=
  match env with
  | VDict d => map fst d
  | _ => []
  end.

(** A float that is not a NaN. *)
Definition not_nan (f : float) : bool :=
  match f with
  | S754_nan => false
  | _ => true
  end.

(** [a <= b] on floats. *)
Definition fle (a b : float) : bool := SFleb a b.

(** Geocoding payloads that find nothing. *)
Definition demo_geo_zero : value :=
  VDict [("results", VList []); ("status", VStr "ZERO_RESULTS")].

Definition demo_geo_empty : value :=
  VDict [("results", VList []); ("status", VStr "OK")].

Definition zero_results_env : Env :=
  demo_keys_env (Ok demo_geo_zero) (Ok demo_weather) (Ok demo_tide).

Definition empty_results_env : Env :=
  demo_keys_env (Ok demo_geo_empty) (Ok demo_weather) (Ok demo_tide).

(** A world where the geocoding endpoint times out. *)
Definition geo_down_env : Env :=
  demo_keys_env (Raise Demo.timeout) (Ok demo_weather) (Ok demo_tide).

(** A geocoding payload whose latitude is a word. *)
Definition demo_geo_text_lat : value :=
  VDict [("results",
          VList [VDict [("geometry",
                         VDict [("location",
                                 VDict [("lat", VStr "north");
                                        ("lng", VFloat demo_lng)])])]]);
         ("status", VStr "OK")].

Definition text_lat_env : Env :=
  demo_keys_env (Ok demo_geo_text_lat) (Ok demo_weather) (Ok demo_tide).

(** An hour of the weather payload, and a payload whose second hour is null. *)
Definition demo_hour : dict :=
  [("time", VStr "2026-11-03T16:00:00+00:00");
   ("swellHeight", VDict [("sg", VFloat f1_0); ("noaa", VFloat f1_3)])].

Definition demo_weather_bad_hour : dict :=
  [("hours", VList [VDict demo_hour; VNone]); ("meta", demo_meta)].

Definition bad_hour_env : Env :=
  demo_keys_env (Ok demo_geo) (Ok (VDict demo_weather_bad_hour)) (Ok demo_tide).

(** A world whose weather endpoint answers with a JSON list. *)
Definition list_weather_env : Env :=
  demo_keys_env (Ok demo_geo) (Ok (VList [])) (Ok demo_tide).

(** A world whose marine-data key is made of spaces. *)
Definition blank_key_env : Env :=
  Demo.env (Some "  ") (Some "g-key") (Ok demo_geo) (Ok demo_weather) (Ok demo_tide).

(** ** The hourly records and the summary, read off the weather payload *)











(** * Properties *)

(** ** Facts about the values *)

Lemma literals_are_nearest :
  SFdiv prec emax (binary_normalize prec emax 52 0 false)
                  (binary_normalize prec emax 10 0 false) = f5_2 /\
  SFdiv prec emax (binary_normalize prec emax 11 0 false)
                  (binary_normalize prec emax 10 0 false) = f1_1 /\
  SFdiv prec emax (binary_normalize prec emax 13 0 false)
                  (binary_normalize prec emax 10 0 false) = f1_3.
Proof. repeat split; vm_compute; reflexivity. Qed.

Lemma dict_get_head (k : string) (v : value) (rest : dict) :
  dict_get ((k, v) :: rest) k = v.
Proof. unfold dict_get; simpl. now rewrite String.eqb_refl. Qed.

Lemma dict_mem_false_get (d : dict) (k : string) :
  dict_mem d k = false -> dict_get d k = VNone.
Proof.
  unfold dict_get.
  induction d as [|[k' v] d IH]; simpl; [reflexivity|].
  destruct (String.eqb k' k); simpl; [discriminate | exact IH].
Qed.

(** ** [_pick_value] *)

Lemma pick_value_number (x : value) (f : float) :
  is_number x = true -> float_of_number x = Ok f ->
  _pick_value x = Ok (Some f).
Proof.
  intros Hn Hf. unfold _pick_value. rewrite Hn, Hf. reflexivity.
Qed.

Lemma pick_value_mapping (k : string) (v : value) (rest : dict) :
  _pick_value (VDict ((k, v) :: rest)) =
  if is_number v then _pick_value v else Ok None.
Proof.
  unfold _pick_value at 1. cbn [is_number].
  rewrite dict_get_head.
  destruct (is_number v) eqn:Hv; [|reflexivity].
  unfold _pick_value. now rewrite Hv.
Qed.

(** C1, as amended.  [_pick_value] returns [float(x)] when [x] is a number
    (an [int], a [float] or a [bool], which [isinstance] takes for an
    [int]) that [float] converts: a float itself, the nearest float of an
    int, 1.0 or 0.0 of a bool.  On a non-empty mapping it returns what it
    returns on the value of the first key when that value is a number.
    It returns nothing on [None] (an absent field reads as [None]), on an
    empty mapping, on a string and on a list.  The four examples of the
    specification hold. *)
Theorem pick_value_cases :
  (forall f, _pick_value (VFloat f) = Ok (Some f)) /\
  (forall n f, float_of_int n = Ok f -> _pick_value (VInt n) = Ok (Some f)) /\
  (forall b, _pick_value (VBool b) = Ok (Some (float_of_bool b))) /\
  (forall k v rest f,
      is_number v = true -> float_of_number v = Ok f ->
      _pick_value (VDict ((k, v) :: rest)) = Ok (Some f)) /\
  (forall k f rest, _pick_value (VDict ((k, VFloat f) :: rest)) = Ok (Some f)) /\
  _pick_value VNone = Ok None /\
  _pick_value (VDict []) = Ok None /\
  (forall s, _pick_value (VStr s) = Ok None) /\
  (forall l, _pick_value (VList l) = Ok None) /\
  _pick_value (VFloat f5_2) = Ok (Some f5_2) /\
  _pick_value (VDict [("sg", VFloat f1_1); ("noaa", VFloat f1_3)]) = Ok (Some f1_1).
Proof.
  repeat split; try reflexivity.
  - intros n f H. now apply pick_value_number.
  - intros k v rest f Hn Hf. rewrite pick_value_mapping, Hn.
    now apply pick_value_number.
  - intros k f rest. now rewrite pick_value_mapping.
Qed.

Lemma pick_value_cases_witness :
  _pick_value (VInt 3) = Ok (Some (S754_finite false 6755399441055744 (-51))) /\
  _pick_value (VDict [("sg", VInt 3); ("noaa", VStr "n/a")])
    = Ok (Some (S754_finite false 6755399441055744 (-51))).
Proof.
  destruct pick_value_cases as (_ & Hint & _ & Hmap & _).
  split.
  - apply Hint. reflexivity.
  - apply Hmap; reflexivity.
Defined.

(** C1, as stated, fails.  The mapping [{"sg": "calm", "noaa": 1.3}] is not
    empty and the value of its first key is the string ["calm"], yet
    nothing is returned; and the plain number [10**400] is not returned:
    [float] raises [OverflowError] on it. *)
Lemma pick_value_not_always_first_value :
  dict_get [("sg", VStr "calm"); ("noaa", VFloat f1_3)] "sg" = VStr "calm" /\
  _pick_value (VDict [("sg", VStr "calm"); ("noaa", VFloat f1_3)]) = Ok None /\
  _pick_value (VInt (10 ^ 400))
    = Raise (Exn "OverflowError" "int too large to convert to float").
Proof. repeat split; vm_compute; reflexivity. Qed.

(** C10.  On a non-empty mapping whose first value is not a number,
    [_pick_value] returns nothing, whatever the later keys hold. *)
Theorem pick_value_first_not_number (k : string) (v : value) (rest : dict) :
  is_number v = false ->
  _pick_value (VDict ((k, v) :: rest)) = Ok None.
Proof.
  intros Hv. now rewrite pick_value_mapping, Hv.
Qed.

Lemma pick_value_first_not_number_witness :
  _pick_value (VDict [("sg", VNone); ("noaa", VFloat f1_3); ("icon", VInt 2)])
    = Ok None.
Proof.
  apply (pick_value_first_not_number "sg" VNone
           [("noaa", VFloat f1_3); ("icon", VInt 2)]).
  reflexivity.
Defined.

(** ** [_day_range_to_utc_timestamps] *)

Section DayRange.

Variable W : Env.

Lemma day_range_returns (date tz_name : string) (tz : tzinfo) (day : Z) :
  valid_day W date tz_name tz day ->
  _day_range_to_utc_timestamps W date tz_name =
    ([CallDayRange date tz_name],
     Ok (utc_of_wall tz (midnight day), utc_of_wall tz (midnight (day + 1)))).
Proof.
  intros (Hz & Htz & (utc & Hutc) & Hday & Hnext & Hs & He).
  unfold _day_range_to_utc_timestamps.
  rewrite Hz, Htz, Hday, Hutc. cbn [negb lift bind tell ret app].
  unfold add_days, utc_timestamp. cbn [wall tz_of].
  unfold midnight, utc_of_wall in *.
  replace (86400 * day + 86400 * 1) with (86400 * (day + 1)) by lia.
  rewrite Hnext. cbn [wall tz_of]. rewrite Hs, He. reflexivity.
Qed.

Lemma day_range_inversion (date tz_name : string) (l : list event) (s e : Z) :
  _day_range_to_utc_timestamps W date tz_name = (l, Ok (s, e)) ->
  exists tz day, valid_day W date tz_name tz day /\
                 s = utc_of_wall tz (midnight day) /\
                 e = utc_of_wall tz (midnight (day + 1)).
Proof.
  unfold _day_range_to_utc_timestamps, valid_day.
  destruct (zoneinfo_available W); cbn [negb lift bind tell raise ret app];
    [|discriminate].
  destruct (ZoneInfo W tz_name) as [tz|] eqn:Htz; [|discriminate].
  destruct (strptime_ymd W date) as [day|] eqn:Hday; [|discriminate].
  unfold add_days, utc_timestamp, midnight, utc_of_wall. cbn [wall tz_of].
  replace (86400 * day + 86400 * 1) with (86400 * (day + 1)) by lia.
  destruct (in_datetime_range (86400 * (day + 1))) eqn:Hnext; [|discriminate].
  destruct (ZoneInfo W "UTC") as [utc|] eqn:Hutc; [|discriminate].
  cbn [wall tz_of].
  destruct (in_datetime_range (86400 * day - utcoffset tz (86400 * day)))
    eqn:Hs; [|discriminate].
  destruct (in_datetime_range
              (86400 * (day + 1) - utcoffset tz (86400 * (day + 1))))
    eqn:He; [|discriminate].
  intros H. injection H as _ <- <-.
  exists tz, day. repeat split; eauto.
Qed.

(** C2.  For a date and a zone the resolver accepts, a range is returned;
    and whenever a range is returned, it runs from the UTC instant of local
    midnight of the day parsed to the UTC instant of the next local
    midnight, so that [end - start] is the duration of that local day:
    86400 seconds less the change of the zone's UTC offset between the two
    midnights, and 86400 only when the offset is the same at both. *)
Theorem day_range_is_local_day (date tz_name : string) :
  (forall tz day,
      valid_day W date tz_name tz day ->
      exists s e, outcome (_day_range_to_utc_timestamps W date tz_name) = Ok (s, e)) /\
  (forall s e,
      outcome (_day_range_to_utc_timestamps W date tz_name) = Ok (s, e) ->
      exists tz day,
        valid_day W date tz_name tz day /\
        s = utc_of_wall tz (midnight day) /\
        e = utc_of_wall tz (midnight (day + 1)) /\
        e - s = local_day_duration tz day /\
        e - s = 86400 - (utcoffset tz (midnight (day + 1)) - utcoffset tz (midnight day)) /\
        (e - s = 86400 <->
         utcoffset tz (midnight (day + 1)) = utcoffset tz (midnight day))).
Proof.
  split.
  - intros tz day Hv. rewrite (day_range_returns _ _ _ _ Hv).
    eexists _, _. reflexivity.
  - intros s e H.
    destruct (_day_range_to_utc_timestamps W date tz_name) as [l r] eqn:Hrun.
    cbn in H. subst r.
    destruct (day_range_inversion _ _ _ _ _ Hrun) as (tz & day & Hv & -> & ->).
    exists tz, day. split; [exact Hv|].
    unfold local_day_duration, utc_of_wall, midnight.
    repeat split; try reflexivity; intros; lia.
Qed.

End DayRange.

Lemma demo_valid_day_spring :
  valid_day quiet_env "2024-03-10" "America/New_York" Demo.new_york 19792.
Proof.
  unfold valid_day. repeat split; try reflexivity.
  exists Demo.utc. reflexivity.
Defined.

(** On the day daylight time begins in New York the range is 23 hours long,
    on the day it ends 25 hours, and in Taipei a day has 24 hours. *)
Lemma day_range_examples :
  _day_range_to_utc_timestamps quiet_env "2024-03-10" "America/New_York"
    = ([CallDayRange "2024-03-10" "America/New_York"], Ok (1710046800, 1710129600)) /\
  1710129600 - 1710046800 = 82800 /\
  _day_range_to_utc_timestamps quiet_env "2024-11-03" "America/New_York"
    = ([CallDayRange "2024-11-03" "America/New_York"], Ok (1730606400, 1730696400)) /\
  1730696400 - 1730606400 = 90000 /\
  _day_range_to_utc_timestamps quiet_env "2026-11-04" "Asia/Taipei"
    = ([CallDayRange "2026-11-04" "Asia/Taipei"], Ok (1793721600, 1793808000)) /\
  1793808000 - 1793721600 = 86400.
Proof. repeat split; vm_compute; reflexivity. Qed.

Lemma day_range_is_local_day_witness :
  exists s e,
    outcome (_day_range_to_utc_timestamps quiet_env "2024-03-10" "America/New_York")
      = Ok (s, e) /\
    e - s = local_day_duration Demo.new_york 19792 /\ e - s = 82800.
Proof.
  destruct (day_range_is_local_day quiet_env "2024-03-10" "America/New_York")
    as [Hret Hdur].
  destruct (Hret _ _ demo_valid_day_spring) as (s & e & Hse).
  exists s, e. split; [exact Hse|].
  vm_compute in Hse. injection Hse as <- <-.
  split; vm_compute; reflexivity.
Defined.

(** ** The loop over the hours *)

Section Hours.

Variable W : Env.

Lemma param_fits_picks (v : value) :
  param_fits v = true -> exists o, _pick_value v = Ok o.
Proof.
  unfold param_fits, int_fits.
  destruct v as [| b | n | f | s | l | d]; try (intros; eexists; reflexivity).
  - unfold _pick_value; cbn [is_number float_of_number].
    destruct (float_of_int n); intros; [eexists; reflexivity | discriminate].
  - destruct d as [|[k v] rest]; [intros; eexists; reflexivity|].
    rewrite pick_value_mapping.
    destruct v as [| b | n | f | s | l | d']; try (intros; eexists; reflexivity).
    cbn [is_number]. unfold _pick_value; cbn [is_number float_of_number].
    destruct (float_of_int n); intros; [eexists; reflexivity | discriminate].
Qed.

Lemma sample_of_pick (d : dict) (key : string) (o : option float) :
  _pick_value (dict_get d key) = Ok o -> sample key (VDict d) = o.
Proof. unfold sample. now intros ->. Qed.

Lemma append_some_list (vals : list float) (o : option float) :
  append_some vals o = (vals ++ sample_list o)%list.
Proof. destruct o; simpl; [reflexivity | now rewrite app_nil_r]. Qed.

Lemma hour_body_fits (timezone : string) (acc : hours_acc) (h : value) :
  hour_fits h = true ->
  hour_body W timezone acc h =
    Ok {| hourly := (hourly acc ++ [hour_record W timezone h])%list;
          wave_vals := (wave_vals acc ++ sample_list (sample "swellHeight" h))%list;
          wind_vals := (wind_vals acc ++ sample_list (sample "windSpeed" h))%list;
          water_temp_vals :=
            (water_temp_vals acc ++ sample_list (sample "waterTemperature" h))%list |}.
Proof.
  destruct h as [| | | | | | d]; try discriminate.
  unfold hour_fits, hour_params. cbn [forallb].
  intros H.
  repeat (apply andb_prop in H; destruct H as [?H H]).
  destruct (param_fits_picks _ H0) as [tide_v Htide].
  destruct (param_fits_picks _ H1) as [wave_v Hwave].
  destruct (param_fits_picks _ H2) as [wt_v Hwt].
  destruct (param_fits_picks _ H3) as [wind_v Hwind].
  unfold hour_body, hour_record, shown_time.
  cbn [py_get py_get_default rbind]. fold (dict_get d "time").
  fold (dict_get d "tide") (dict_get d "swellHeight")
       (dict_get d "waterTemperature") (dict_get d "windSpeed").
  rewrite Htide, Hwave, Hwt, Hwind. cbn [rbind].
  rewrite (sample_of_pick _ _ _ Htide), (sample_of_pick _ _ _ Hwave),
          (sample_of_pick _ _ _ Hwt), (sample_of_pick _ _ _ Hwind).
  now rewrite !append_some_list.
Qed.

(** The loop fills its lists with the hourly records and with the
    non-missing values of each parameter, in the order of the hours. *)
Lemma for_hours_fits (timezone : string) (hours : list value) :
  forallb hour_fits hours = true ->
  forall acc,
    for_hours W timezone hours acc =
      Ok {| hourly := (hourly acc ++ map (hour_record W timezone) hours)%list;
            wave_vals := (wave_vals acc ++ samples "swellHeight" hours)%list;
            wind_vals := (wind_vals acc ++ samples "windSpeed" hours)%list;
            water_temp_vals :=
              (water_temp_vals acc ++ samples "waterTemperature" hours)%list |}.
Proof.
  induction hours as [|h rest IH]; intros Hfit acc.
  - cbn. rewrite !app_nil_r. now destruct acc.
  - cbn [forallb] in Hfit. apply andb_prop in Hfit. destruct Hfit as [Hh Hrest].
    cbn [for_hours]. rewrite (hour_body_fits _ _ _ Hh). cbn [rbind].
    rewrite (IH Hrest).
    cbn [hourly wave_vals wind_vals water_temp_vals map samples flat_map].
    now rewrite <- !app_assoc.
Qed.

End Hours.

(** ** [_safe_minmax] *)

Lemma flt_irrefl (a : float) : flt a a = false.
Proof.
  unfold flt, SFltb, SFcompare.
  destruct a as [s | s | | s m e]; try destruct s; try reflexivity;
    rewrite Z.compare_refl; change (Pos.compare_cont Eq m m) with (Pos.compare m m);
    rewrite Pos.compare_refl; reflexivity.
Qed.

Ltac cmp_cases :=
  repeat match goal with
  | H : context [Z.compare ?a ?b] |- _ =>
      destruct (Z.compare_spec a b); cbn [CompOpp] in H
  | |- context [Z.compare ?a ?b] =>
      destruct (Z.compare_spec a b); cbn [CompOpp]
  | H : context [Pos.compare ?a ?b] |- _ =>
      destruct (Pos.compare_spec a b); cbn [CompOpp] in H
  | |- context [Pos.compare ?a ?b] =>
      destruct (Pos.compare_spec a b); cbn [CompOpp]
  end.

Lemma flt_trans (a b c : float) :
  flt a b = true -> flt b c = true -> flt a c = true.
Proof.
  unfold flt, SFltb, SFcompare.
  destruct a as [sa | sa | | sa ma ea], b as [sb | sb | | sb mb eb],
           c as [sc | sc | | sc mc ec];
    try destruct sa; try destruct sb; try destruct sc;
    try discriminate; try reflexivity;
    change (Pos.compare_cont Eq) with Pos.compare;
    intros H1 H2; cmp_cases; subst; try discriminate; try reflexivity; try lia.
Qed.

Lemma flt_below_false (x item best : float) :
  flt x best = false -> flt item best = true -> flt x item = false.
Proof.
  intros Hx Hi. destruct (flt x item) eqn:E; [|reflexivity].
  now rewrite (flt_trans _ _ _ E Hi) in Hx.
Qed.

Lemma flt_above_false (x item best : float) :
  flt best x = false -> flt best item = true -> flt item x = false.
Proof.
  intros Hx Hi. destruct (flt item x) eqn:E; [|reflexivity].
  now rewrite (flt_trans _ _ _ Hi E) in Hx.
Qed.

(** The invariant of [min]: the item kept is one of those seen, and none of
    those seen compares below it. *)
Lemma py_min_fold (others seen : list float) (best : float) :
  In best seen -> (forall x, In x seen -> flt x best = false) ->
  let lo := py_min best others in
  In lo (seen ++ others) /\ forall x, In x (seen ++ others) -> flt x lo = false.
Proof.
  revert seen best. unfold py_min.
  induction others as [|item rest IH]; intros seen best Hin Hlow; cbn [fold_left].
  - rewrite app_nil_r. now split.
  - replace (seen ++ item :: rest)%list with ((seen ++ [item]) ++ rest)%list
      by now rewrite <- app_assoc.
    apply IH.
    + destruct (flt item best); apply in_or_app; [right; now left | now left].
    + intros x Hx. apply in_app_or in Hx.
      destruct (flt item best) eqn:E.
      * destruct Hx as [Hx | [<- | []]]; [|apply flt_irrefl].
        eapply flt_below_false; eauto.
      * destruct Hx as [Hx | [<- | []]]; auto.
Qed.

Lemma py_max_fold (others seen : list float) (best : float) :
  In best seen -> (forall x, In x seen -> flt best x = false) ->
  let hi := py_max best others in
  In hi (seen ++ others) /\ forall x, In x (seen ++ others) -> flt hi x = false.
Proof.
  revert seen best. unfold py_max.
  induction others as [|item rest IH]; intros seen best Hin Hhigh; cbn [fold_left].
  - rewrite app_nil_r. now split.
  - replace (seen ++ item :: rest)%list with ((seen ++ [item]) ++ rest)%list
      by now rewrite <- app_assoc.
    apply IH.
    + destruct (flt best item); apply in_or_app; [right; now left | now left].
    + intros x Hx. apply in_app_or in Hx.
      destruct (flt best item) eqn:E.
      * destruct Hx as [Hx | [<- | []]]; [|apply flt_irrefl].
        eapply flt_above_false; eauto.
      * destruct Hx as [Hx | [<- | []]]; auto.
Qed.

Lemma safe_minmax_is_minmax (vals : list float) :
  minmax_of vals (_safe_minmax vals).
Proof.
  destruct vals as [|first others]; [reflexivity|].
  cbn [minmax_of _safe_minmax].
  exists (py_min first others), (py_max first others).
  assert (Hin : In first [first]) by now left.
  assert (Hlow : forall x, In x [first] -> flt x first = false)
    by (intros x [<- | []]; apply flt_irrefl).
  assert (Hhigh : forall x, In x [first] -> flt first x = false)
    by (intros x [<- | []]; apply flt_irrefl).
  destruct (py_min_fold others [first] first Hin Hlow) as [Hlo1 Hlo2].
  destruct (py_max_fold others [first] first Hin Hhigh) as [Hhi1 Hhi2].
  cbn [app] in *. repeat split; auto.
Qed.

(** ** [sea_day] *)

Lemma geocode_success_fields (lat lng a : value) :
  py_get (geocode_success lat lng a) "ok" = Ok (VBool true) /\
  py_item (geocode_success lat lng a) "lat" = Ok lat /\
  py_item (geocode_success lat lng a) "lng" = Ok lng.
Proof. repeat split; reflexivity. Qed.

Lemma hours_fit_iter (hours_field : value) :
  hours_fit hours_field = true ->
  py_iter (py_or hours_field (VList [])) = Ok (hours_of hours_field) /\
  forallb hour_fits (hours_of hours_field) = true.
Proof.
  unfold hours_fit, hours_of.
  destruct (py_or hours_field (VList [])); try discriminate.
  intros H. now split.
Qed.

Ltac run := cbn [bind attempt try_except ret lift raise tell rbind app negb].

(** Runs [sea_day] through the key check, the time range and the geocoding,
    from the facts [Hkey], [Hres] and [Hgeo] about them. *)
Ltac run_to_weather Hkey Hres Hgeo :=
  let lat_v := fresh "lat_v" in
  let lng_v := fresh "lng_v" in
  let addr := fresh "addr" in
  let G := fresh "G" in
  let Hlat := fresh "Hlat" in
  let Hlng := fresh "Hlng" in
  let Gok := fresh "Gok" in
  let Glat := fresh "Glat" in
  let Glng := fresh "Glng" in
  let l1 := fresh "l1" in
  let l2 := fresh "l2" in
  let e1 := fresh "e1" in
  let H1 := fresh "H1" in
  let H2 := fresh "H2" in
  destruct Hgeo as (lat_v & lng_v & addr & G & Hlat & Hlng);
  apply String.eqb_neq in Hkey;
  destruct (geocode_success_fields lat_v lng_v addr) as (Gok & Glat & Glng);
  unfold sea_day;
  rewrite Hkey;
  destruct Hres as [(l1 & H1 & -> & ->) | (l1 & e1 & l2 & H1 & H2 & -> & ->)];
  unfold first_date in *;
  [ rewrite H1 | rewrite H1; run; rewrite H2 ];
  run; rewrite G; run; rewrite Gok; run; cbn [truthy negb];
  rewrite Glat, Glng; run; rewrite Hlat, Hlng; run.

(** *** The calls made *)

Section Traces.

Variable W : Env.

Lemma day_range_trace (date tz_name : string) :
  trace (_day_range_to_utc_timestamps W date tz_name) = [CallDayRange date tz_name].
Proof.
  unfold _day_range_to_utc_timestamps, trace.
  destruct (zoneinfo_available W); cbn [negb bind tell raise lift ret fst app];
    [|reflexivity].
  destruct (ZoneInfo W tz_name); [|reflexivity].
  destruct (strptime_ymd W date); [|reflexivity].
  cbn [bind lift ret fst app].
  destruct (add_days _ 1); [|reflexivity].
  destruct (ZoneInfo W "UTC"); [|reflexivity].
  cbn [bind lift ret fst app].
  destruct (utc_timestamp _); [|reflexivity].
  cbn [bind lift ret fst app].
  destruct (utc_timestamp _); reflexivity.
Qed.

Lemma http_get_json_trace (url : string) (headers : list (string * string))
    (timeout_sec : Z) :
  trace (_http_get_json W url headers timeout_sec) = [HttpGet url headers timeout_sec].
Proof.
  unfold _http_get_json, trace. cbn [bind tell lift].
  destruct (urlopen_read W url headers timeout_sec); [|reflexivity].
  destruct (json_loads W a); reflexivity.
Qed.

Ltac split_lifts :=
  repeat match goal with
  | |- context [bind (lift ?r) _] => destruct r; cbn [bind lift ret fst app]
  | |- context [match ?r with Ok _ => _ | Raise _ => _ end] =>
      destruct r; cbn [bind lift ret fst app]
  | |- context [if ?b then _ else _] => destruct b; cbn [bind lift ret fst app]
  end.

Lemma geocode_trace (place api_key language region : string) (timeout_sec : Z) :
  filter is_day_range_call
    (trace (_google_geocode_place W place api_key language region timeout_sec)) = [].
Proof.
  unfold _google_geocode_place, trace.
  destruct (String.eqb (strip place) ""); [reflexivity|].
  destruct (String.eqb api_key ""); [reflexivity|].
  match goal with
  | |- context [_http_get_json W ?u ?h ?t] =>
      pose proof (http_get_json_trace u h t) as T;
      destruct (_http_get_json W u h t) as [l [data | e]]
  end; unfold trace in T; cbn [fst] in T; subst l;
    cbn [bind attempt ret fst app]; [|reflexivity].
  split_lifts; reflexivity.
Qed.

Lemma weather_trace (lat lng : float) (s e : Z) (key : string) (t : Z) :
  filter is_day_range_call (trace (_stormglass_weather W lat lng s e key t)) = [].
Proof. unfold _stormglass_weather. now rewrite http_get_json_trace. Qed.

Lemma tide_trace (lat lng : float) (s e : Z) (key : string) (t : Z) :
  filter is_day_range_call (trace (_stormglass_tide_extremes W lat lng s e key t)) = [].
Proof. unfold _stormglass_tide_extremes. now rewrite http_get_json_trace. Qed.

End Traces.

(** Splits the run of the stages after the time range on the outcome of
    every call and test. *)
Ltac explore_tail W :=
  repeat (run; cbn [fst snd];
    match goal with
    | |- context [_stormglass_weather W ?a ?b ?c ?d ?k ?t] =>
        let TW := fresh "TW" in
        pose proof (weather_trace W a b c d k t) as TW;
        destruct (_stormglass_weather W a b c d k t) as [? [? | ?]];
        unfold trace in TW; cbn [fst] in TW
    | |- context [_stormglass_tide_extremes W ?a ?b ?c ?d ?k ?t] =>
        let TT := fresh "TT" in
        pose proof (tide_trace W a b c d k t) as TT;
        destruct (_stormglass_tide_extremes W a b c d k t) as [? [? | ?]];
        unfold trace in TT; cbn [fst] in TT
    | |- context [if negb (truthy ?a) then _ else _] =>
        destruct (truthy a); cbn [negb]
    | |- context [match ?r with Ok _ => _ | Raise _ => _ end] => destruct r
    end);
  run; cbn [fst snd].

(** Names what a run added to the trace of the time range. *)
Ltac close_trace :=
  match goal with
  | |- exists rest r, ((?a ++ (?b ++ []) ++ ?tail)%list, ?res)
                      = (((?a ++ ?b) ++ rest)%list, r) /\ _ =>
      exists tail, res; split; [now rewrite app_nil_r, app_assoc|]
  | |- exists rest r, ((?a ++ ?tail)%list, ?res) = ((?a ++ rest)%list, r) /\ _ =>
      exists tail, res; split; [reflexivity|]
  end.






Section SeaDay.

Variable W : Env.
Variable self : Tools.
Variables date place timezone : string.
Variable timeout_sec : Z.

(** The run of [sea_day] when the weather payload is a mapping whose hours
    are as the endpoint documents them: the success envelope, whatever the
    tide fetch does. *)
Lemma sea_day_success (date' : string) (start_utc end_utc : Z)
    (lat lng : float) (lr lg lw : list event) (weather : dict) :
  storm_key self <> "" ->
  resolves_to W (first_date W date) timezone date' start_utc end_utc lr ->
  geocodes_to W self place timeout_sec lat lng lg ->
  _stormglass_weather W lat lng start_utc end_utc (storm_key self) timeout_sec
    = (lw, Ok (VDict weather)) ->
  hours_fit (dict_get weather "hours") = true ->
  sea_day W self date place timezone timeout_sec =
    let tide := _stormglass_tide_extremes W lat lng start_utc end_utc
                  (storm_key self) timeout_sec in
    ((lr ++ lg ++ lw ++ fst tide)%list,
     Ok (success_envelope W date' timezone lat lng start_utc end_utc
           (hours_of (dict_get weather "hours"))
           (extremes_of (snd tide))
           (dict_get weather "meta"))).
Proof.
  intros Hkey Hres Hgeo Hweather Hfit.
  destruct (hours_fit_iter _ Hfit) as [Hiter Hall].
  pose proof (for_hours_fits W timezone _ Hall) as Hloop.
  run_to_weather Hkey Hres Hgeo.
  - rewrite Hweather. run.
    destruct (_stormglass_tide_extremes W lat lng start_utc end_utc
                (storm_key self) timeout_sec) as [lt [payload | ex]];
      run; cbn [py_get py_get_default]; fold (dict_get weather "hours");
      fold (dict_get weather "meta"); run; rewrite Hiter; run; rewrite Hloop; run;
      cbn [fst snd extremes_of hourly wave_vals wind_vals water_temp_vals app];
      rewrite ?app_nil_r; reflexivity.
  - rewrite Hweather. run.
    destruct (_stormglass_tide_extremes W lat lng start_utc end_utc
                (storm_key self) timeout_sec) as [lt [payload | ex]];
      run; cbn [py_get py_get_default]; fold (dict_get weather "hours");
      fold (dict_get weather "meta"); run; rewrite Hiter; run; rewrite Hloop; run;
      cbn [fst snd extremes_of hourly wave_vals wind_vals water_temp_vals app];
      rewrite ?app_nil_r, <- ?app_assoc; reflexivity.
Qed.

(** C3.  When the run reaches the weather fetch and that fetch raises,
    [sea_day] returns at once (no tide fetch is made) the envelope
    [{ok: false, stage: "stormglass_weather", error}], which holds neither
    [hourly] nor [summary]. *)
Theorem weather_failure_is_fatal (date' : string) (start_utc end_utc : Z)
    (lat lng : float) (lr lg lw : list event) (ex : exn) :
  storm_key self <> "" ->
  resolves_to W (first_date W date) timezone date' start_utc end_utc lr ->
  geocodes_to W self place timeout_sec lat lng lg ->
  _stormglass_weather W lat lng start_utc end_utc (storm_key self) timeout_sec
    = (lw, Raise ex) ->
  exists env,
    sea_day W self date place timezone timeout_sec
      = ((lr ++ lg ++ lw)%list, Ok env) /\
    field_is env "ok" (VBool false) /\
    field_is env "stage" (VStr "stormglass_weather") /\
    field_is env "error" (VStr (format_exn ex)) /\
    has_no_field env "hourly" /\ has_no_field env "summary".
Proof.
  intros Hkey Hres Hgeo Hweather.
  run_to_weather Hkey Hres Hgeo; rewrite Hweather; run;
    rewrite ?app_nil_r, <- ?app_assoc;
    (eexists; split; [reflexivity|]); repeat split.
Qed.



(** C9.  When the weather payload is a mapping with no [hours] field, or
    with that field null or an empty list, [sea_day] returns the success
    envelope with [ok: true], an empty [hourly] and, for every parameter
    of the summary, no sample and a null entry. *)
Theorem missing_hours_is_not_a_failure (date' : string)
    (start_utc end_utc : Z) (lat lng : float) (lr lg lw : list event)
    (weather : dict) :
  storm_key self <> "" ->
  resolves_to W (first_date W date) timezone date' start_utc end_utc lr ->
  geocodes_to W self place timeout_sec lat lng lg ->
  _stormglass_weather W lat lng start_utc end_utc (storm_key self) timeout_sec
    = (lw, Ok (VDict weather)) ->
  dict_mem weather "hours" = false \/
  dict_get weather "hours" = VNone \/
  dict_get weather "hours" = VList [] ->
  exists lt env,
    sea_day W self date place timezone timeout_sec
      = ((lr ++ lg ++ lw ++ lt)%list, Ok env) /\
    field_is env "ok" (VBool true) /\
    field_is env "hourly" (VList []) /\
    field_is env "summary"
      (VDict [("swellHeight", VNone); ("waterTemperature", VNone);
              ("windSpeed", VNone)]) /\
    (forall key, samples key (hours_of (dict_get weather "hours")) = []).
Proof.
  intros Hkey Hres Hgeo Hweather Hhours.
  assert (Hempty : hours_of (dict_get weather "hours") = [] /\
                   hours_fit (dict_get weather "hours") = true).
  { destruct Hhours as [H | [H | H]];
      [apply dict_mem_false_get in H | |]; rewrite H; now split. }
  destruct Hempty as [Hempty Hfit].
  rewrite (sea_day_success _ _ _ _ _ _ _ _ _ Hkey Hres Hgeo Hweather Hfit).
  rewrite Hempty. cbn zeta.
  eexists _, _. split; [reflexivity|].
  repeat split.
Qed.

(** Whatever the later stages do once the time range is there, they call
    the range resolver no more, and an envelope they return is either a
    success for the date and range resolved or a failure of the geocoding
    or of the weather stage. *)
Lemma sea_day_after_range (date' : string) (start_utc end_utc : Z)
    (lr : list event) :
  storm_key self <> "" ->
  resolves_to W (first_date W date) timezone date' start_utc end_utc lr ->
  exists rest r,
    sea_day W self date place timezone timeout_sec = ((lr ++ rest)%list, r) /\
    (exists later,
        rest = (trace (_google_geocode_place W place (google_key self)
                         "zh-TW" "tw" (Z.min 10 timeout_sec)) ++ later)%list) /\
    filter is_day_range_call rest = [] /\
    forall env, r = Ok env ->
      success_for env date' timezone start_utc end_utc \/
      failure_at env "geocoding" \/ failure_at env "stormglass_weather".
Proof.
  intros Hkey Hres.
  apply String.eqb_neq in Hkey.
  pose proof (geocode_trace W place (google_key self) "zh-TW" "tw"
                (Z.min 10 timeout_sec)) as TG.
  unfold sea_day. rewrite Hkey.
  destruct Hres as [(l1 & H1 & -> & ->) | (l1 & e1 & l2 & H1 & H2 & -> & ->)];
    unfold first_date in *;
    [ rewrite H1 | rewrite H1; run; rewrite H2 ]; run.
  all: destruct (_google_geocode_place W place (google_key self) "zh-TW" "tw"
                   (Z.min 10 timeout_sec)) as [lg [ginfo | ex]];
       unfold trace in *; cbn [fst] in *.
  all: explore_tail W.
  all: close_trace.
  all: split; [first [eexists; reflexivity | exists []; now rewrite app_nil_r]|].
  all: split; [now rewrite ?filter_app, ?TG, ?TW, ?TT|].
  all: intros env Henv; try discriminate Henv; injection Henv as <-.
  all: unfold success_for, failure_at, field_is;
       first [ left; solve [repeat esplit]
             | right; left; solve [repeat esplit]
             | right; right; solve [repeat esplit] ].
Qed.

Lemma stage_is_not_time_range (env : value) (d tz : string) (s e : Z) :
  success_for env d tz s e \/
  failure_at env "geocoding" \/ failure_at env "stormglass_weather" ->
  ~ failure_at env "time_range".
Proof.
  unfold success_for, failure_at, field_is.
  destruct env; try tauto.
  intros [(Hok & _) | [(_ & Hst & _) | (_ & Hst & _)]] (Hok' & Hst' & _).
  - destruct Hok as [_ Hok], Hok' as [_ Hok']. congruence.
  - destruct Hst as [_ Hst], Hst' as [_ Hst']. rewrite Hst in Hst'. discriminate.
  - destruct Hst as [_ Hst], Hst' as [_ Hst']. rewrite Hst in Hst'. discriminate.
Qed.

(** The run of [sea_day] when the range of the first date does not resolve. *)
Lemma fallback_run (l1 : list event) (e1 : exn) :
  storm_key self <> "" ->
  _day_range_to_utc_timestamps W (first_date W date) timezone = (l1, Raise e1) ->
  exists rest r,
    sea_day W self date place timezone timeout_sec =
      (CallDayRange (first_date W date) timezone
         :: CallDayRange (today_iso W) timezone :: rest, r) /\
    filter is_day_range_call rest = [] /\
    match outcome (_day_range_to_utc_timestamps W (today_iso W) timezone) with
    | Raise e2 =>
        rest = [] /\
        r = Ok (VDict [("ok", VBool false); ("stage", VStr "time_range");
                       ("error", VStr (format_exn e2))])
    | Ok (start_utc, end_utc) =>
        (exists later,
            rest = (trace (_google_geocode_place W place (google_key self)
                             "zh-TW" "tw" (Z.min 10 timeout_sec)) ++ later)%list) /\
        forall env, r = Ok env ->
          ~ failure_at env "time_range" /\
          (success_for env (today_iso W) timezone start_utc end_utc \/
           failure_at env "geocoding" \/ failure_at env "stormglass_weather")
    end.
Proof.
  intros Hkey H1.
  pose proof (day_range_trace W (first_date W date) timezone) as T1.
  pose proof (day_range_trace W (today_iso W) timezone) as T2.
  rewrite H1 in T1. unfold trace in T1, T2. cbn [fst] in T1. subst l1.
  destruct (_day_range_to_utc_timestamps W (today_iso W) timezone)
    as [l2 [[start_utc end_utc] | e2]] eqn:H2; cbn [fst] in T2; subst l2;
    cbn [outcome snd].
  - assert (Hres : resolves_to W (first_date W date) timezone (today_iso W)
                     start_utc end_utc
                     ([CallDayRange (first_date W date) timezone]
                        ++ [CallDayRange (today_iso W) timezone])).
    { right. eexists _, _, _. repeat split; eassumption. }
    destruct (sea_day_after_range _ _ _ _ Hkey Hres)
      as (rest & r & Hrun & Hgeo & Hfilter & Henv).
    exists rest, r. repeat split; try assumption.
    + eapply stage_is_not_time_range. eauto.
    + auto.
  - exists [], (Ok (VDict [("ok", VBool false); ("stage", VStr "time_range");
                           ("error", VStr (format_exn e2))])).
    repeat split.
    apply String.eqb_neq in Hkey.
    unfold sea_day. rewrite Hkey. unfold first_date in *.
    rewrite H1. run. rewrite H2. run. reflexivity.
Qed.

(** C6.  With the marine-data key set, when the range of the first date
    does not resolve, the resolver is called once more, with today's date,
    and never again.  When that call raises, [sea_day] returns the failure
    [{ok: false, stage: "time_range", error}] of its exception and does
    nothing else.  When it returns a range, [sea_day] goes on to the
    geocoding, and an envelope it returns is not the failure of the time
    range: it is a success for today's date and that range, or a failure of
    a later stage. *)
Theorem date_falls_back_to_today (l1 : list event) (e1 : exn) :
  storm_key self <> "" ->
  _day_range_to_utc_timestamps W (first_date W date) timezone = (l1, Raise e1) ->
  exists rest r,
    sea_day W self date place timezone timeout_sec =
      (CallDayRange (first_date W date) timezone
         :: CallDayRange (today_iso W) timezone :: rest, r) /\
    filter is_day_range_call rest = [] /\
    match outcome (_day_range_to_utc_timestamps W (today_iso W) timezone) with
    | Raise e2 =>
        rest = [] /\
        r = Ok (VDict [("ok", VBool false); ("stage", VStr "time_range");
                       ("error", VStr (format_exn e2))])
    | Ok (start_utc, end_utc) =>
        (exists later,
            rest = (trace (_google_geocode_place W place (google_key self)
                             "zh-TW" "tw" (Z.min 10 timeout_sec)) ++ later)%list) /\
        forall env, r = Ok env ->
          ~ failure_at env "time_range" /\
          (success_for env (today_iso W) timezone start_utc end_utc \/
           failure_at env "geocoding" \/ failure_at env "stormglass_weather")
    end.
Proof. exact (fallback_run l1 e1). Qed.

(** Every failure envelope [sea_day] returns once the marine-data key is
    set names its stage. *)
Lemma failures_after_key_check_carry_stage (env : value) :
  storm_key self <> "" ->
  outcome (sea_day W self date place timezone timeout_sec) = Ok env ->
  field_is env "ok" (VBool false) ->
  failure_at env "time_range" \/ failure_at env "geocoding" \/
  failure_at env "stormglass_weather".
Proof.
  intros Hkey Hout Hfalse.
  destruct (_day_range_to_utc_timestamps W (first_date W date) timezone)
    as [l1 [[s e] | e1]] eqn:H1.
  - assert (Hres : resolves_to W (first_date W date) timezone
                     (first_date W date) s e l1)
      by (left; eexists; repeat split; eassumption).
    destruct (sea_day_after_range _ _ _ _ Hkey Hres)
      as (rest & r & Hrun & _ & _ & Henv).
    rewrite Hrun in Hout. cbn in Hout.
    destruct (Henv _ Hout) as [(Hok & _) | H]; [|tauto].
    unfold field_is in *. destruct env; try tauto.
    destruct Hok as [_ Hok], Hfalse as [_ Hfalse]. congruence.
  - destruct (fallback_run _ _ Hkey H1)
      as (rest & r & Hrun & _ & Hcases).
    rewrite Hrun in Hout. cbn in Hout.
    destruct (outcome (_day_range_to_utc_timestamps W (today_iso W) timezone))
      as [[s e] | e2].
    + destruct Hcases as [_ Henv].
      destruct (Henv _ Hout) as [_ [(Hok & _) | H]]; [|tauto].
      unfold field_is in *. destruct env; try tauto.
      destruct Hok as [_ Hok], Hfalse as [_ Hfalse]. congruence.
    + destruct Hcases as [_ ->]. injection Hout as <-.
      left. unfold failure_at, field_is. repeat esplit.
Qed.

(** C7, at the failing path.  Without the marine-data key [sea_day] returns
    at once, before any call, the envelope [{ok: false, error}]: it holds
    no [stage]. *)
Theorem missing_key_envelope_has_no_stage :
  storm_key self = "" ->
  exists env,
    sea_day W self date place timezone timeout_sec = ([], Ok env) /\
    field_is env "ok" (VBool false) /\
    field_is env "error" (VStr "Missing STORMGLASS_API_KEY env var") /\
    has_no_field env "stage".
Proof.
  intros Hkey. unfold sea_day. rewrite Hkey. cbn [String.eqb].
  eexists. split; [reflexivity|]. repeat split.
Qed.

End SeaDay.

(** ** [_google_geocode_place] *)

Section Geocode.

Variable W : Env.

Lemma dict_get_default_found (d : dict) (k : string) (dflt v : value) :
  dict_get d k = v -> v <> VNone -> dict_get_default d k dflt = v.
Proof.
  unfold dict_get.
  induction d as [|[k' v'] d IH]; cbn [dict_get_default]; [congruence|].
  destruct (String.eqb k' k); auto.
Qed.

Lemma py_or_dict (g : dict) : py_or (VDict g) (VDict []) = VDict g.
Proof. now destruct g. Qed.

(** C8, as amended.  For a place that is not empty once stripped, an API
    key that is not empty, and a response that decodes to a mapping with
    status ["OK"] whose results are a list, the first of them a mapping
    with a [lat] and a [lng] other than null under [geometry.location]:
    one request is made, and the success result holds that [lat], that
    [lng] and the [formatted_address] of that first result, unchanged. *)
Theorem geocode_returns_first_result
    (place api_key language region : string) (timeout_sec : Z)
    (raw : string) (data top geometry location : dict) (others : list value)
    (lat lng : value) :
  let url := GOOGLE_GEOCODE_ENDPOINT ++ "?" ++
             urlencode W [("address", VStr (strip place)); ("key", VStr api_key);
                          ("language", VStr language); ("region", VStr region)] in
  strip place <> "" ->
  api_key <> "" ->
  urlopen_read W url [] timeout_sec = Ok raw ->
  json_loads W raw = Ok (VDict data) ->
  dict_get data "status" = VStr "OK" ->
  dict_get data "results" = VList (VDict top :: others) ->
  dict_get top "geometry" = VDict geometry ->
  dict_get geometry "location" = VDict location ->
  dict_get location "lat" = lat -> lat <> VNone ->
  dict_get location "lng" = lng -> lng <> VNone ->
  _google_geocode_place W place api_key language region timeout_sec =
    ([HttpGet url [] timeout_sec],
     Ok (VDict [("ok", VBool true); ("lat", lat); ("lng", lng);
                ("formatted_address", dict_get top "formatted_address")])).
Proof.
  intros url Hplace Hkey Hopen Hjson Hstatus Hresults Hgeom Hloc Hlat Hlatn Hlng Hlngn.
  apply String.eqb_neq in Hplace, Hkey.
  unfold _google_geocode_place, _http_get_json. rewrite Hplace, Hkey.
  fold url. cbn [bind tell lift attempt app]. rewrite Hopen.
  cbn [bind tell lift attempt app]. rewrite Hjson.
  cbn [bind tell lift attempt ret app py_get py_get_default].
  rewrite (dict_get_default_found _ _ _ _ Hstatus) by discriminate. cbn [differs_from_str String.eqb Ascii.eqb Bool.eqb negb].
  fold (dict_get data "results"). rewrite Hresults.
  cbn [py_or truthy negb py_first bind lift ret app py_get py_get_default].
  rewrite (dict_get_default_found _ _ _ _ Hgeom), py_or_dict by discriminate.
  cbn [bind lift ret app py_get py_get_default].
  rewrite (dict_get_default_found _ _ _ _ Hloc), py_or_dict by discriminate.
  cbn [bind lift ret app py_get py_get_default].
  fold (dict_get location "lat") (dict_get location "lng")
       (dict_get top "formatted_address").
  rewrite Hlat, Hlng.
  destruct lat; try congruence; destruct lng; try congruence; reflexivity.
Qed.

End Geocode.

(** * The properties on the concrete world *)

Ltac by_running := vm_compute; reflexivity.

Lemma demo_resolves_first (W : Env) :
  ZoneInfo W = Demo.zone_db -> strptime_ymd W = Demo.parse_ymd ->
  zoneinfo_available W = true -> today_iso W = "2026-11-04" ->
  resolves_to W (first_date W "") "Asia/Taipei" "2026-11-04"
    1793721600 1793808000 [CallDayRange "2026-11-04" "Asia/Taipei"].
Proof.
  intros Hz Hp Ha Ht. left. eexists. unfold first_date.
  unfold _day_range_to_utc_timestamps. rewrite Hz, Hp, Ha, Ht.
  repeat split.
Defined.


Lemma demo_geocodes (weather tide : result value) :
  geocodes_to (demo_keys_env (Ok demo_geo) weather tide) demo_tools "Kenting" 20
    demo_lat demo_lng
    (trace (_google_geocode_place (demo_keys_env (Ok demo_geo) weather tide)
              "Kenting" "g-key" "zh-TW" "tw" 10)).
Proof.
  exists (VFloat demo_lat), (VFloat demo_lng), (VStr "Kenting, Pingtung, Taiwan").
  repeat split.
Defined.

Lemma weather_failure_is_fatal_witness :
  exists env,
    outcome (sea_day no_weather_env demo_tools "" "Kenting" "Asia/Taipei" 20) = Ok env /\
    field_is env "ok" (VBool false) /\
    field_is env "stage" (VStr "stormglass_weather") /\
    field_is env "error" (VStr "TimeoutError: timed out") /\
    has_no_field env "hourly" /\ has_no_field env "summary".
Proof.
  destruct (weather_failure_is_fatal no_weather_env demo_tools "" "Kenting"
              "Asia/Taipei" 20 "2026-11-04" 1793721600 1793808000
              demo_lat demo_lng
              [CallDayRange "2026-11-04" "Asia/Taipei"]
              (trace (_google_geocode_place no_weather_env "Kenting" "g-key"
                        "zh-TW" "tw" 10))
              (trace (_stormglass_weather no_weather_env demo_lat demo_lng
                        1793721600 1793808000 "sg-key" 20))
              Demo.timeout)
    as (env & Hrun & H).
  - discriminate.
  - now apply demo_resolves_first.
  - apply demo_geocodes.
  - by_running.
  - exists env. rewrite Hrun. split; [reflexivity | exact H].
Defined.



Lemma missing_hours_is_not_a_failure_witness :
  exists env,
    outcome (sea_day no_hours_env demo_tools "" "Kenting" "Asia/Taipei" 20) = Ok env /\
    field_is env "ok" (VBool true) /\
    field_is env "hourly" (VList []) /\
    field_is env "summary"
      (VDict [("swellHeight", VNone); ("waterTemperature", VNone);
              ("windSpeed", VNone)]).
Proof.
  destruct (missing_hours_is_not_a_failure no_hours_env demo_tools "" "Kenting"
              "Asia/Taipei" 20 "2026-11-04" 1793721600 1793808000
              demo_lat demo_lng
              [CallDayRange "2026-11-04" "Asia/Taipei"]
              (trace (_google_geocode_place no_hours_env "Kenting" "g-key"
                        "zh-TW" "tw" 10))
              (trace (_stormglass_weather no_hours_env demo_lat demo_lng
                        1793721600 1793808000 "sg-key" 20))
              [("meta", demo_meta)])
    as (lt & env & Hrun & Hok & Hhourly & Hsummary & _).
  - discriminate.
  - now apply demo_resolves_first.
  - apply demo_geocodes.
  - by_running.
  - left. reflexivity.
  - exists env. rewrite Hrun. repeat split; assumption.
Defined.

Lemma date_falls_back_to_today_witness :
  exists rest env,
    sea_day fair_env demo_tools "tomorrow" "Kenting" "Asia/Taipei" 20 =
      (CallDayRange "tomorrow" "Asia/Taipei"
         :: CallDayRange "2026-11-04" "Asia/Taipei" :: rest, Ok env) /\
    filter is_day_range_call rest = [] /\
    success_for env "2026-11-04" "Asia/Taipei" 1793721600 1793808000.
Proof.
  destruct (date_falls_back_to_today fair_env demo_tools "tomorrow" "Kenting"
              "Asia/Taipei" 20 [CallDayRange "tomorrow" "Asia/Taipei"]
              (Demo.value_error "tomorrow"))
    as (rest & r & Hrun & Hfilter & Hcases).
  - discriminate.
  - reflexivity.
  - exists rest, (envelope_of (sea_day fair_env demo_tools "tomorrow" "Kenting"
                                "Asia/Taipei" 20)).
    assert (Hr : r = Ok (envelope_of (sea_day fair_env demo_tools "tomorrow"
                                        "Kenting" "Asia/Taipei" 20))).
    { unfold envelope_of. rewrite Hrun. cbn [outcome snd].
      apply (f_equal snd) in Hrun. cbn [snd] in Hrun. rewrite <- Hrun.
      by_running. }
    rewrite Hrun, Hr. repeat split; try assumption; by_running.
Defined.

Lemma missing_key_envelope_has_no_stage_witness :
  storm_key (Tools__init__ quiet_env) = "" /\
  exists env,
    sea_day quiet_env (Tools__init__ quiet_env) "2026-11-04" "Kenting"
      "Asia/Taipei" 20 = ([], Ok env) /\
    field_is env "ok" (VBool false) /\
    has_no_field env "stage".
Proof.
  split; [reflexivity|].
  destruct (missing_key_envelope_has_no_stage quiet_env (Tools__init__ quiet_env)
              "2026-11-04" "Kenting" "Asia/Taipei" 20)
    as (env & Hrun & Hok & _ & Hstage); [reflexivity|].
  exists env. repeat split; assumption.
Defined.

Lemma geocode_returns_first_result_witness :
  outcome (_google_geocode_place fair_env "  Kenting " "g-key" "zh-TW" "tw" 10) =
    Ok (VDict [("ok", VBool true); ("lat", VFloat demo_lat);
               ("lng", VFloat demo_lng);
               ("formatted_address", VStr "Kenting, Pingtung, Taiwan")]).
Proof.
  rewrite (geocode_returns_first_result fair_env "  Kenting " "g-key" "zh-TW" "tw"
             10 "geocode"
             [("results",
               VList [VDict [("formatted_address", VStr "Kenting, Pingtung, Taiwan");
                             ("geometry",
                              VDict [("location",
                                      VDict [("lat", VFloat demo_lat);
                                             ("lng", VFloat demo_lng)])])]]);
              ("status", VStr "OK")]
             [("formatted_address", VStr "Kenting, Pingtung, Taiwan");
              ("geometry",
               VDict [("location",
                       VDict [("lat", VFloat demo_lat); ("lng", VFloat demo_lng)])])]
             [("location", VDict [("lat", VFloat demo_lat); ("lng", VFloat demo_lng)])]
             [("lat", VFloat demo_lat); ("lng", VFloat demo_lng)]
             [] (VFloat demo_lat) (VFloat demo_lng));
    try reflexivity; discriminate.
Defined.



(** C8, as stated, fails.  The place [" "] is not empty and the geocoding
    service would answer ["OK"] with one result, yet the geocoding fails,
    no request made; and for a response with status ["OK"] and one result
    that has no location, it fails as well. *)
Lemma geocode_fails_on_blank_place_or_missing_location :
  " " <> "" /\
  _google_geocode_place fair_env " " "g-key" "zh-TW" "tw" 10 =
    ([], Ok (VDict [("ok", VBool false); ("error", VStr "place is required")])) /\
  field demo_geo_no_location "status" = VStr "OK" /\
  outcome (_google_geocode_place no_location_env "Kenting" "g-key" "zh-TW" "tw" 10) =
    Ok (VDict [("ok", VBool false); ("query", VStr "Kenting");
               ("status", VStr "OK");
               ("error", VStr "Missing lat/lng in response")]).
Proof. repeat split; try discriminate; by_running. Qed.

(** [sea_day] raises when the geocoding service answers with JSON that is
    not a mapping. *)
Lemma sea_day_raises_on_list_payload :
  outcome (sea_day list_geo_env demo_tools "2026-11-04" "Kenting" "Asia/Taipei" 20)
    = Raise (Exn "AttributeError" "'list' object has no attribute 'get'").
Proof. by_running. Qed.

(** * Further properties *)

Lemma lstrip_no_leading_space (s : string) : no_leading_space (lstrip s).
Proof.
  induction s as [|c s IH]; cbn [lstrip]; [exact I|].
  destruct (is_space c) eqn:E; [exact IH | exact E].
Qed.

Lemma lstrip_fixed (s : string) : no_leading_space s -> lstrip s = s.
Proof. destruct s as [|c s]; cbn; [reflexivity | now intros ->]. Qed.

Lemma rstrip_no_leading_space (s : string) :
  no_leading_space s -> no_leading_space (rstrip s).
Proof.
  destruct s as [|c s]; cbn [rstrip no_leading_space]; [trivial|].
  intros Hc. destruct (rstrip s); [rewrite Hc|]; exact Hc.
Qed.

Lemma rstrip_idempotent (s : string) : rstrip (rstrip s) = rstrip s.
Proof.
  induction s as [|c s IH]; [reflexivity|].
  cbn [rstrip]. destruct (rstrip s) as [|c' r] eqn:E.
  - destruct (is_space c) eqn:Hc; [reflexivity|]. cbn [rstrip]. now rewrite Hc.
  - change (rstrip (String c (String c' r))) with
      (match rstrip (String c' r) with
       | EmptyString => if is_space c then EmptyString else String c EmptyString
       | String a b => String c (String a b)
       end).
    now rewrite IH.
Qed.

Lemma strip_idempotent (s : string) : strip (strip s) = strip s.
Proof.
  unfold strip.
  rewrite (lstrip_fixed (rstrip (lstrip s))).
  - apply rstrip_idempotent.
  - apply rstrip_no_leading_space, lstrip_no_leading_space.
Qed.

Lemma geocode_strips_place (W : Env) (place api_key language region : string)
    (timeout_sec : Z) :
  _google_geocode_place W (strip place) api_key language region timeout_sec
  = _google_geocode_place W place api_key language region timeout_sec.
Proof. unfold _google_geocode_place. now rewrite strip_idempotent. Qed.

(** X11.  Whitespace around the date and around the place is ignored:
    [sea_day] runs on the stripped arguments as on the arguments. *)
Theorem sea_day_ignores_surrounding_space (W : Env) (self : Tools) (date place timezone : string)
    (timeout_sec : Z) :
  sea_day W self (strip date) (strip place) timezone timeout_sec
  = sea_day W self date place timezone timeout_sec.
Proof.
  unfold sea_day. now rewrite strip_idempotent, geocode_strips_place.
Qed.

(** Splits a run on the outcome of every pure step and test. *)
Ltac split_steps :=
  repeat match goal with
  | |- context [bind (lift ?r) _] => destruct r; cbn [bind lift ret fst snd app]
  | |- context [match ?r with Ok _ => _ | Raise _ => _ end] =>
      destruct r; cbn [bind lift ret fst snd app]
  | |- context [if ?b then _ else _] => destruct b; cbn [bind lift ret fst snd app]
  end.

Section GeocodePaths.

Variable W : Env.
Variables place api_key language region : string.
Variable timeout_sec : Z.

Let url := geocode_url W (strip place) api_key language region.

Lemma geocode_trace_cases :
  trace (_google_geocode_place W place api_key language region timeout_sec) =
    if String.eqb (strip place) "" || String.eqb api_key "" then []
    else [HttpGet url [] timeout_sec].
Proof.
  unfold _google_geocode_place, trace.
  destruct (String.eqb (strip place) ""); [reflexivity|].
  destruct (String.eqb api_key ""); [reflexivity|].
  cbn [orb]. fold (geocode_url W (strip place) api_key language region). fold url.
  pose proof (http_get_json_trace W url [] timeout_sec) as T.
  destruct (_http_get_json W url [] timeout_sec) as [l [data | e]];
    unfold trace in T; cbn [fst] in T; subst l;
    cbn [bind attempt ret fst app]; [|reflexivity].
  split_steps; reflexivity.
Qed.

(** X1.  [_google_geocode_place] sends no request when the place is blank
    or the API key is empty, and exactly one otherwise, whatever the
    response: a [GET] of the geocoding URL for the stripped place, without
    headers. *)
Theorem geocode_request_count :
  trace (_google_geocode_place W place api_key language region timeout_sec) =
    if String.eqb (strip place) "" || String.eqb api_key "" then []
    else [HttpGet url [] timeout_sec].
Proof. exact geocode_trace_cases. Qed.

Lemma geocode_transport_failure_run (l : list event) (ex : exn) :
  strip place <> "" -> api_key <> "" ->
  _http_get_json W url [] timeout_sec = (l, Raise ex) ->
  _google_geocode_place W place api_key language region timeout_sec =
    (l, Ok (VDict [("ok", VBool false);
                   ("error", VStr ("HTTP/parse error: " ++ exn_class ex
                                     ++ ": " ++ exn_msg ex))])).
Proof.
  intros Hp Hk Hget. apply String.eqb_neq in Hp, Hk.
  unfold _google_geocode_place. rewrite Hp, Hk.
  fold (geocode_url W (strip place) api_key language region). fold url.
  rewrite Hget. cbn [bind attempt ret app]. now rewrite app_nil_r.
Qed.

(** X2.  When the request raises, in transport or in decoding,
    [_google_geocode_place] does not raise: it returns the failure whose
    [error] is ["HTTP/parse error: <class>: <message>"]. *)
Theorem geocode_transport_failure (l : list event) (ex : exn) :
  strip place <> "" -> api_key <> "" ->
  _http_get_json W url [] timeout_sec = (l, Raise ex) ->
  _google_geocode_place W place api_key language region timeout_sec =
    (l, Ok (VDict [("ok", VBool false);
                   ("error", VStr ("HTTP/parse error: " ++ exn_class ex
                                     ++ ": " ++ exn_msg ex))])).
Proof. exact (geocode_transport_failure_run l ex). Qed.

(** X3.  When the geocoding response is a mapping whose [status] (taken as
    ["UNKNOWN"] when absent) is not the string ["OK"], the result is a
    failure that carries the stripped place as [query], that status, and as
    [error] the [error_message] of the response when it is true, the text
    ["Geocoding failed: <status>"] otherwise. *)
Theorem geocode_status_failure (l : list event) (data : dict) :
  strip place <> "" -> api_key <> "" ->
  _http_get_json W url [] timeout_sec = (l, Ok (VDict data)) ->
  let status := dict_get_default data "status" (VStr "UNKNOWN") in
  status <> VStr "OK" ->
  _google_geocode_place W place api_key language region timeout_sec =
    (l, Ok (VDict [("ok", VBool false); ("query", VStr (strip place));
                   ("status", status);
                   ("error",
                    if truthy (dict_get data "error_message")
                    then dict_get data "error_message"
                    else VStr ("Geocoding failed: " ++ py_str W status))])).
Proof.
  intros Hp Hk Hget status Hst. apply String.eqb_neq in Hp, Hk.
  unfold _google_geocode_place. rewrite Hp, Hk.
  fold (geocode_url W (strip place) api_key language region). fold url.
  rewrite Hget. cbn [bind attempt ret lift app py_get py_get_default]. fold status.
  assert (Hd : differs_from_str status "OK" = true).
  { destruct status as [| | | | s | |]; try reflexivity.
    cbn. destruct (String.eqb_spec s "OK"); [congruence | reflexivity]. }
  rewrite Hd. cbn [bind attempt ret lift app]. now rewrite app_nil_r.
Qed.

(** X4.  When the geocoding response has status ["OK"] and its [results]
    are absent, null, empty or otherwise false, the result is the failure
    ["No results"], with the stripped place and the status. *)
Theorem geocode_no_results (l : list event) (data : dict) :
  strip place <> "" -> api_key <> "" ->
  _http_get_json W url [] timeout_sec = (l, Ok (VDict data)) ->
  dict_get data "status" = VStr "OK" ->
  truthy (dict_get data "results") = false ->
  _google_geocode_place W place api_key language region timeout_sec =
    (l, Ok (VDict [("ok", VBool false); ("query", VStr (strip place));
                   ("status", VStr "OK"); ("error", VStr "No results")])).
Proof.
  intros Hp Hk Hget Hst Hres. apply String.eqb_neq in Hp, Hk.
  unfold _google_geocode_place. rewrite Hp, Hk.
  fold (geocode_url W (strip place) api_key language region). fold url.
  rewrite Hget. cbn [bind attempt ret lift app py_get py_get_default].
  rewrite (dict_get_default_found _ _ _ _ Hst) by discriminate.
  cbn [differs_from_str String.eqb Ascii.eqb Bool.eqb negb].
  fold (dict_get data "results"). unfold py_or. rewrite Hres.
  cbn [truthy negb bind ret app]. now rewrite app_nil_r.
Qed.

(** X5.  When the geocoding response decodes to anything but a mapping,
    [_google_geocode_place] returns no result: it raises the
    [AttributeError] of the [get] it attempts on it. *)
Theorem geocode_not_a_mapping (l : list event) (data : value) :
  strip place <> "" -> api_key <> "" ->
  _http_get_json W url [] timeout_sec = (l, Ok data) ->
  (forall d, data <> VDict d) ->
  _google_geocode_place W place api_key language region timeout_sec =
    (l, Raise (attribute_error data "get")).
Proof.
  intros Hp Hk Hget Hnd. apply String.eqb_neq in Hp, Hk.
  unfold _google_geocode_place. rewrite Hp, Hk.
  fold (geocode_url W (strip place) api_key language region). fold url.
  rewrite Hget. cbn [bind attempt ret lift app].
  destruct data; try (cbn; now rewrite app_nil_r).
  now destruct (Hnd d).
Qed.

End GeocodePaths.

(** X6.  Whatever [_google_geocode_place] returns is a mapping whose [ok] is
    a boolean: when true, the mapping is [{ok, lat, lng,
    formatted_address}] and neither coordinate is null; when false, it has
    an [error] and no coordinate. *)
Theorem geocode_result_shape (W : Env) (place api_key language region : string)
    (timeout_sec : Z) (r : value) :
  outcome (_google_geocode_place W place api_key language region timeout_sec) = Ok r ->
  geocode_result r.
Proof.
  unfold _google_geocode_place, outcome, geocode_result.
  destruct (String.eqb (strip place) "");
    [intros [= <-]; eexists; split; [reflexivity | right; repeat split]|].
  destruct (String.eqb api_key "");
    [intros [= <-]; eexists; split; [reflexivity | right; repeat split]|].
  match goal with
  | |- context [_http_get_json W ?u ?h ?t] =>
      destruct (_http_get_json W u h t) as [l [data | e]]
  end; cbn [bind attempt ret snd];
    [|intros [= <-]; eexists; split; [reflexivity | right; repeat split]].
  repeat match goal with
  | |- context [bind (lift ?r) _] => destruct r; cbn [bind lift ret snd]
  | |- context [match ?r with Ok _ => _ | Raise _ => _ end] =>
      destruct r; cbn [bind lift ret snd]
  | |- context [if is_None ?a || is_None ?b then _ else _] =>
      destruct (is_None a) eqn:?, (is_None b) eqn:?; cbn [orb bind lift ret snd]
  | |- context [if ?b then _ else _] => destruct b; cbn [bind lift ret snd]
  end.
  all: intros [= <-]; eexists; (split; [reflexivity|]).
  all: try (right; solve [repeat split]).
  all: try (left; solve [repeat split; cbn; intros E; subst; cbn in *; discriminate]).
Qed.

(** Runs [sea_day] through the key check and the time range. *)
Ltac run_to_geocode Hkey Hres :=
  let l1 := fresh "l1" in
  let l2 := fresh "l2" in
  let e1 := fresh "e1" in
  let H1 := fresh "H1" in
  let H2 := fresh "H2" in
  apply String.eqb_neq in Hkey;
  unfold sea_day;
  rewrite Hkey;
  destruct Hres as [(l1 & H1 & -> & ->) | (l1 & e1 & l2 & H1 & H2 & -> & ->)];
  unfold first_date in *;
  [ rewrite H1 | rewrite H1; run; rewrite H2 ];
  run.

Section SeaDayPaths.

Variable W : Env.
Variable self : Tools.
Variables date place timezone : string.
Variable timeout_sec : Z.

Lemma sea_day_geocoding_failure_run (date' : string) (start_utc end_utc : Z)
    (lr lg : list event) (info : dict) :
  storm_key self <> "" ->
  resolves_to W (first_date W date) timezone date' start_utc end_utc lr ->
  _google_geocode_place W place (google_key self) "zh-TW" "tw"
    (Z.min 10 timeout_sec) = (lg, Ok (VDict info)) ->
  truthy (dict_get info "ok") = false ->
  sea_day W self date place timezone timeout_sec =
    ((lr ++ lg)%list,
     Ok (VDict [("ok", VBool false); ("stage", VStr "geocoding");
                ("error", dict_get_default info "error" (VStr "Geocoding failed"));
                ("geocode", VDict info)])).
Proof.
  intros Hkey Hres Hgeo Hok.
  run_to_geocode Hkey Hres; rewrite Hgeo; run;
    cbn [py_get py_get_default]; fold (dict_get info "ok"); run;
    rewrite Hok; run; rewrite ?app_nil_r, <- ?app_assoc; reflexivity.
Qed.

(** X7.  When the geocoding returns a result whose [ok] is false, [sea_day]
    returns the [geocoding] failure, with the [error] of that result
    (["Geocoding failed"] when it has none) and the result itself under
    [geocode], and makes no marine-data request. *)
Theorem sea_day_geocoding_failure (date' : string) (start_utc end_utc : Z)
    (lr lg : list event) (info : dict) :
  storm_key self <> "" ->
  resolves_to W (first_date W date) timezone date' start_utc end_utc lr ->
  _google_geocode_place W place (google_key self) "zh-TW" "tw"
    (Z.min 10 timeout_sec) = (lg, Ok (VDict info)) ->
  truthy (dict_get info "ok") = false ->
  sea_day W self date place timezone timeout_sec =
    ((lr ++ lg)%list,
     Ok (VDict [("ok", VBool false); ("stage", VStr "geocoding");
                ("error", dict_get_default info "error" (VStr "Geocoding failed"));
                ("geocode", VDict info)])).
Proof. exact (sea_day_geocoding_failure_run date' start_utc end_utc lr lg info). Qed.

Lemma geocode_guard_run :
  strip place = "" \/ google_key self = "" ->
  exists msg,
    _google_geocode_place W place (google_key self) "zh-TW" "tw"
      (Z.min 10 timeout_sec)
    = ([], Ok (VDict [("ok", VBool false); ("error", VStr msg)])).
Proof.
  unfold _google_geocode_place.
  intros [Hp | Hg].
  - rewrite Hp. cbn [String.eqb]. eexists. reflexivity.
  - rewrite Hg. destruct (String.eqb (strip place) ""); eexists; reflexivity.
Qed.

(** X8.  When the marine-data key is empty, the place is blank or the
    geocoding key is empty, [sea_day] sends no request at all: it returns a
    failure envelope with an [error], and its trace holds calls of the range
    resolver only. *)
Theorem sea_day_offline :
  storm_key self = "" \/ strip place = "" \/ google_key self = "" ->
  exists env,
    outcome (sea_day W self date place timezone timeout_sec) = Ok env /\
    field_is env "ok" (VBool false) /\
    (exists err, field_is env "error" err) /\
    forall ev, In ev (trace (sea_day W self date place timezone timeout_sec)) ->
               is_day_range_call ev = true.
Proof.
  intros Hcase.
  destruct (String.eqb (storm_key self) "") eqn:Hkey.
  - unfold sea_day. rewrite Hkey. eexists. repeat esplit. intros ev [].
  - assert (Hpg : strip place = "" \/ google_key self = "").
    { destruct Hcase as [H | H]; [|exact H].
      apply String.eqb_neq in Hkey. contradiction. }
    destruct (geocode_guard_run Hpg) as [msg G].
    pose proof (day_range_trace W (first_date W date) timezone) as T1.
    pose proof (day_range_trace W (today_iso W) timezone) as T2.
    unfold sea_day, first_date, trace, outcome in *. rewrite Hkey.
    destruct (_day_range_to_utc_timestamps W
                (if String.eqb (strip date) "" then today_iso W else strip date)
                timezone) as [l1 [[s e] | e1]]; cbn [fst] in T1; subst l1; run.
    + rewrite G. run. cbn [fst snd app].
      eexists. repeat esplit.
      intros ev [<- | []]. reflexivity.
    + destruct (_day_range_to_utc_timestamps W (today_iso W) timezone)
        as [l2 [[s e] | e2]]; cbn [fst] in T2; subst l2; run.
      * rewrite G. run. cbn [fst snd app].
        eexists. repeat esplit.
        intros ev [<- | [<- | []]]; reflexivity.
      * cbn [fst snd app]. eexists. repeat esplit.
        intros ev [<- | [<- | []]]; reflexivity.
Qed.

Lemma day_range_unknown_zone (d : string) (ex : exn) :
  zoneinfo_available W = true -> ZoneInfo W timezone = Raise ex ->
  _day_range_to_utc_timestamps W d timezone = ([CallDayRange d timezone], Raise ex).
Proof.
  intros Ha Hz. unfold _day_range_to_utc_timestamps. now rewrite Ha, Hz.
Qed.

(** X9.  A timezone the zone database does not know is not recovered by
    the fallback to today's date: both resolutions raise the same exception
    and [sea_day] returns the [time_range] failure made of it, nothing
    requested. *)
Theorem sea_day_unknown_zone (ex : exn) :
  storm_key self <> "" ->
  zoneinfo_available W = true -> ZoneInfo W timezone = Raise ex ->
  sea_day W self date place timezone timeout_sec =
    ([CallDayRange (first_date W date) timezone;
      CallDayRange (today_iso W) timezone],
     Ok (VDict [("ok", VBool false); ("stage", VStr "time_range");
                ("error", VStr (exn_class ex ++ ": " ++ exn_msg ex))])).
Proof.
  intros Hkey Ha Hz. apply String.eqb_neq in Hkey.
  unfold sea_day. fold (first_date W date). rewrite Hkey.
  rewrite !(day_range_unknown_zone _ _ Ha Hz). reflexivity.
Qed.

(** X10.  A blank date is today's date: when today's date reads without
    surrounding whitespace, [sea_day] on an empty or blank date runs as it
    does on today's date. *)
Theorem sea_day_blank_date :
  strip date = "" -> strip (today_iso W) = today_iso W ->
  sea_day W self date place timezone timeout_sec =
  sea_day W self (today_iso W) place timezone timeout_sec.
Proof.
  intros Hd Ht. unfold sea_day. rewrite Hd, Ht. cbn [String.eqb].
  now destruct (String.eqb (today_iso W) "").
Qed.

End SeaDayPaths.

(** Splits a whole run of [sea_day] on the outcome of every call and test,
    the trace of each call made explicit. *)
Ltac explore_requests W :=
  unfold _stormglass_weather, _stormglass_tide_extremes;
  repeat (run; cbn [fst snd];
    match goal with
    | |- context [_http_get_json W ?u ?h ?t] =>
        let T := fresh "T" in
        pose proof (http_get_json_trace W u h t) as T;
        destruct (_http_get_json W u h t) as [? [? | ?]];
        unfold trace in T; cbn [fst] in T; subst
    | |- context [if negb (truthy ?a) then _ else _] =>
        destruct (truthy a); cbn [negb]
    | |- context [match ?r with Ok _ => _ | Raise _ => _ end] => destruct r
    end);
  run; cbn [fst snd].

Ltac explore_sea_day W self date timezone :=
  let T1 := fresh "T1" in
  let T2 := fresh "T2" in
  pose proof (day_range_trace W (first_date W date) timezone) as T1;
  pose proof (day_range_trace W (today_iso W) timezone) as T2;
  unfold sea_day, first_date, trace, outcome in *;
  destruct (String.eqb (storm_key self) "");
  [ | destruct (_day_range_to_utc_timestamps W
                  (if String.eqb (strip date) "" then today_iso W else strip date)
                  timezone) as [? [[? ?] | ?]]; cbn [fst] in T1; subst; run;
      [ | destruct (_day_range_to_utc_timestamps W (today_iso W) timezone)
            as [? [[? ?] | ?]]; cbn [fst] in T2; subst; run ] ].

Section SeaDayShape.

Variable W : Env.
Variable self : Tools.
Variables date place timezone : string.
Variable timeout_sec : Z.

(** X12.  In every run of [sea_day] the calls of the range resolver, two
    at most, come before every request, and the requests are at most three,
    in this order: the geocoding request, without headers and with a
    timeout of [min(10, timeout_sec)]; the weather request; the tide
    request; the last two with the marine-data key in the [Authorization]
    header.  None is sent unless the one before was. *)
Theorem sea_day_trace_shape :
  let tr := trace (sea_day W self date place timezone timeout_sec) in
  tr = (filter is_day_range_call tr ++ filter is_http tr)%list /\
  (filter is_day_range_call tr = [] \/
   filter is_day_range_call tr = [CallDayRange (first_date W date) timezone] \/
   filter is_day_range_call tr =
     [CallDayRange (first_date W date) timezone;
      CallDayRange (today_iso W) timezone]) /\
  requests_in_order W self place timeout_sec (filter is_http tr).
Proof.
  pose proof (geocode_trace_cases W place (google_key self) "zh-TW" "tw"
                (Z.min 10 timeout_sec)) as TG.
  cbv zeta.
  destruct (String.eqb (strip place) "" || String.eqb (google_key self) "")
    eqn:Hguard.
  - assert (Hpg : strip place = "" \/ google_key self = "").
    { apply orb_prop in Hguard.
      destruct Hguard as [H | H]; apply String.eqb_eq in H; tauto. }
    destruct (geocode_guard_run W self place timeout_sec Hpg) as [msg G].
    explore_sea_day W self date timezone.
    2, 3: rewrite G; run;
          cbn [py_get py_get_default dict_get_default String.eqb Ascii.eqb
               Bool.eqb truthy negb]; run.
    all: explore_requests W.
    all: unfold requests_in_order, is_stormglass_get;
         cbn [app filter is_day_range_call is_http negb].
    all: repeat split; tauto.
  - explore_sea_day W self date timezone.
    2, 3: destruct (_google_geocode_place W place (google_key self) "zh-TW" "tw"
                      (Z.min 10 timeout_sec)) as [lg [ginfo | ex]];
          cbn [fst] in TG; subst lg.
    all: explore_requests W.
    all: unfold requests_in_order, is_stormglass_get;
         cbn [app filter is_day_range_call is_http negb].
    all: repeat split; try tauto.
    all: right; right; eexists; (split; [eexists; reflexivity|]).
    all: first [ left; reflexivity
               | right; eexists; split; [eexists; reflexivity | reflexivity] ].
Qed.

(** X13.  Every envelope [sea_day] returns has one of four sets of keys:
    [ok, error], [ok, stage, error] or [ok, stage, error, geocode] with [ok]
    false, or the eight keys of the success envelope with [ok] true. *)
Theorem sea_day_envelope_shape (env : value) :
  outcome (sea_day W self date place timezone timeout_sec) = Ok env ->
  (field env "ok" = VBool false /\
   (envelope_keys env = ["ok"; "error"] \/
    envelope_keys env = ["ok"; "stage"; "error"] \/
    envelope_keys env = ["ok"; "stage"; "error"; "geocode"])) \/
  (field env "ok" = VBool true /\
   envelope_keys env = ["ok"; "query"; "location"; "range_utc"; "summary";
                        "hourly"; "tide_extremes"; "raw"]).
Proof.
  explore_sea_day W self date timezone.
  2, 3: destruct (_google_geocode_place W place (google_key self) "zh-TW" "tw"
                    (Z.min 10 timeout_sec)) as [lg [ginfo | ex]].
  all: explore_requests W.
  all: intros Henv; try discriminate Henv; injection Henv as <-.
  all: cbn [field envelope_keys map fst dict_get dict_get_default String.eqb
            Ascii.eqb Bool.eqb]; tauto.
Qed.

End SeaDayShape.

Section MoreSeaDay.

Variable W : Env.
Variable self : Tools.
Variables date place timezone : string.
Variable timeout_sec : Z.

(** X14.  On the success path the payload of the tide fetch is the
    [tide_extremes] of the envelope, unchanged; [raw] holds the [meta] of the
    weather payload (null when absent); [location] holds the coordinates
    as floats, [range_utc] the range resolved and [query] the date
    resolved and the timezone. *)
Theorem sea_day_passthrough (date' : string) (start_utc end_utc : Z)
    (lat lng : float) (lr lg lw lt : list event) (weather : dict)
    (payload : value) :
  storm_key self <> "" ->
  resolves_to W (first_date W date) timezone date' start_utc end_utc lr ->
  geocodes_to W self place timeout_sec lat lng lg ->
  _stormglass_weather W lat lng start_utc end_utc (storm_key self) timeout_sec
    = (lw, Ok (VDict weather)) ->
  hours_fit (dict_get weather "hours") = true ->
  _stormglass_tide_extremes W lat lng start_utc end_utc (storm_key self)
    timeout_sec = (lt, Ok payload) ->
  exists env,
    outcome (sea_day W self date place timezone timeout_sec) = Ok env /\
    field env "tide_extremes" = payload /\
    field env "raw" = VDict [("stormglass_weather_meta", dict_get weather "meta")] /\
    field env "location" = VDict [("lat", VFloat lat); ("lng", VFloat lng)] /\
    field env "range_utc" = VDict [("start", VInt start_utc); ("end", VInt end_utc)] /\
    field env "query" = VDict [("date", VStr date'); ("timezone", VStr timezone)].
Proof.
  intros Hkey Hres Hgeo Hweather Hfit Htide.
  rewrite (sea_day_success W self date place timezone timeout_sec
             _ _ _ _ _ _ _ _ _ Hkey Hres Hgeo Hweather Hfit).
  rewrite Htide. eexists. split; [reflexivity|]. repeat split.
Qed.

Lemma for_hours_bad_hour (pre post : list value) (h : value) :
  forallb hour_fits pre = true ->
  (forall d, h <> VDict d) ->
  forall acc,
    for_hours W timezone (pre ++ h :: post) acc = Raise (attribute_error h "get").
Proof.
  intros Hpre Hh.
  induction pre as [|p pre IH]; intros acc.
  - cbn [app for_hours]. unfold hour_body.
    destruct h; try reflexivity. now destruct (Hh d).
  - cbn [forallb] in Hpre. apply andb_prop in Hpre. destruct Hpre as [Hp Hpre].
    cbn [app for_hours]. rewrite (hour_body_fits W _ _ _ Hp). cbn [rbind].
    apply IH, Hpre.
Qed.

(** X15.  When the hours of the weather payload hold an entry that is not
    a mapping, after entries that are, [sea_day] returns no envelope, not
    even for the hours before: it raises the [AttributeError] of that
    entry. *)
Theorem sea_day_bad_hour (date' : string) (start_utc end_utc : Z)
    (lat lng : float) (lr lg lw : list event) (weather : dict)
    (pre post : list value) (h : value) :
  storm_key self <> "" ->
  resolves_to W (first_date W date) timezone date' start_utc end_utc lr ->
  geocodes_to W self place timeout_sec lat lng lg ->
  _stormglass_weather W lat lng start_utc end_utc (storm_key self) timeout_sec
    = (lw, Ok (VDict weather)) ->
  dict_get weather "hours" = VList (pre ++ h :: post) ->
  forallb hour_fits pre = true ->
  (forall d, h <> VDict d) ->
  outcome (sea_day W self date place timezone timeout_sec)
    = Raise (attribute_error h "get").
Proof.
  intros Hkey Hres Hgeo Hweather Hhours Hpre Hh.
  pose proof (for_hours_bad_hour pre post h Hpre Hh) as Hloop.
  assert (Hor : py_or (VList (pre ++ h :: post)) (VList []) = VList (pre ++ h :: post))
    by (now destruct pre).
  run_to_weather Hkey Hres Hgeo; rewrite Hweather; run;
    destruct (_stormglass_tide_extremes W lat lng start_utc end_utc
                (storm_key self) timeout_sec) as [lt [payload | ex]];
    run; cbn [py_get py_get_default]; fold (dict_get weather "hours");
    rewrite Hhours, Hor; cbn [py_iter]; run; rewrite Hloop; reflexivity.
Qed.

(** X16.  The record of an hour keeps the [time] field as it came under
    [time_utc]; its [time_local] is the converted string when the field is
    true and the conversion works, and the field as it came when it is
    false or the conversion raises. *)
Theorem hour_times (acc : hours_acc) (d : dict) :
  hour_fits (VDict d) = true ->
  exists record,
    hour_body W timezone acc (VDict d) = Ok
      {| hourly := (hourly acc ++ [record])%list;
         wave_vals := (wave_vals acc ++ sample_list (sample "swellHeight" (VDict d)))%list;
         wind_vals := (wind_vals acc ++ sample_list (sample "windSpeed" (VDict d)))%list;
         water_temp_vals :=
           (water_temp_vals acc
              ++ sample_list (sample "waterTemperature" (VDict d)))%list |} /\
    field record "time_utc" = dict_get d "time" /\
    (truthy (dict_get d "time") = false ->
       field record "time_local" = dict_get d "time") /\
    (forall e, utc_iso_to_local W (dict_get d "time") timezone = Raise e ->
       field record "time_local" = dict_get d "time") /\
    (forall s, truthy (dict_get d "time") = true ->
       utc_iso_to_local W (dict_get d "time") timezone = Ok s ->
       field record "time_local" = VStr s).
Proof.
  intros Hfit. exists (hour_record W timezone (VDict d)).
  split; [apply hour_body_fits, Hfit|].
  unfold hour_record, shown_time, field, dict_get.
  cbn [dict_get_default String.eqb Ascii.eqb Bool.eqb].
  fold (dict_get d "time").
  repeat split.
  - now intros ->.
  - intros e ->. now destruct (truthy (dict_get d "time")).
  - now intros s -> ->.
Qed.

(** X17.  A marine-data key that is unset, empty or made of whitespace only
    counts as missing: [sea_day] of the tools built from such an
    environment returns the missing-key failure at once. *)
Theorem tools_blank_key :
  match getenv W "STORMGLASS_API_KEY" with
  | Some key => strip key = ""
  | None => True
  end ->
  sea_day W (Tools__init__ W) date place timezone timeout_sec =
    ([], Ok (VDict [("ok", VBool false);
                    ("error", VStr "Missing STORMGLASS_API_KEY env var")])).
Proof.
  intros Hkey.
  assert (H : storm_key (Tools__init__ W) = "").
  { unfold Tools__init__, getenv_default. cbn [storm_key].
    destruct (getenv W "STORMGLASS_API_KEY"); [exact Hkey | reflexivity]. }
  unfold sea_day. now rewrite H.
Qed.

End MoreSeaDay.

Section DayRangeMore.

Variable W : Env.

(** X18.  The ranges of two consecutive days in one zone are contiguous:
    the end of the first is the start of the second. *)
Theorem day_ranges_contiguous (d1 d2 tz_name : string) (day s1 e1 s2 e2 : Z) :
  strptime_ymd W d1 = Ok day ->
  strptime_ymd W d2 = Ok (day + 1) ->
  outcome (_day_range_to_utc_timestamps W d1 tz_name) = Ok (s1, e1) ->
  outcome (_day_range_to_utc_timestamps W d2 tz_name) = Ok (s2, e2) ->
  e1 = s2.
Proof.
  intros Hd1 Hd2 H1 H2.
  destruct (_day_range_to_utc_timestamps W d1 tz_name) as [l1 r1] eqn:R1.
  destruct (_day_range_to_utc_timestamps W d2 tz_name) as [l2 r2] eqn:R2.
  cbn in H1, H2. subst r1 r2.
  destruct (day_range_inversion W _ _ _ _ _ R1) as (tz1 & day1 & V1 & _ & ->).
  destruct (day_range_inversion W _ _ _ _ _ R2) as (tz2 & day2 & V2 & -> & _).
  destruct V1 as (_ & Z1 & _ & P1 & _), V2 as (_ & Z2 & _ & P2 & _).
  congruence.
Qed.

(** X19.  In a zone whose UTC offset never changes, the range starts at
    midnight of the day less the offset and lasts 86400 seconds. *)
Theorem day_range_fixed_offset (date tz_name : string) (tz : tzinfo)
    (c day s e : Z) :
  ZoneInfo W tz_name = Ok tz ->
  (forall w, utcoffset tz w = c) ->
  strptime_ymd W date = Ok day ->
  outcome (_day_range_to_utc_timestamps W date tz_name) = Ok (s, e) ->
  s = 86400 * day - c /\ e = s + 86400.
Proof.
  intros Hz Hc Hd H.
  destruct (_day_range_to_utc_timestamps W date tz_name) as [l r] eqn:R.
  cbn in H. subst r.
  destruct (day_range_inversion W _ _ _ _ _ R) as (tz' & day' & V & -> & ->).
  destruct V as (_ & Z' & _ & P' & _).
  assert (tz' = tz) by congruence. assert (day' = day) by congruence. subst.
  unfold utc_of_wall, midnight. rewrite !Hc. lia.
Qed.

(** X20.  [_day_range_to_utc_timestamps] records one call whatever
    happens, and reports its errors in this order: [RuntimeError] when
    [zoneinfo] is not available, then the exception of the zone lookup,
    whatever the date, then that of the date parser. *)
Theorem day_range_errors (date tz_name : string) :
  trace (_day_range_to_utc_timestamps W date tz_name) = [CallDayRange date tz_name] /\
  (zoneinfo_available W = false ->
     exists e, outcome (_day_range_to_utc_timestamps W date tz_name) = Raise e /\
               exn_class e = "RuntimeError") /\
  (forall ex, zoneinfo_available W = true -> ZoneInfo W tz_name = Raise ex ->
     outcome (_day_range_to_utc_timestamps W date tz_name) = Raise ex) /\
  (forall tz ex, zoneinfo_available W = true -> ZoneInfo W tz_name = Ok tz ->
     strptime_ymd W date = Raise ex ->
     outcome (_day_range_to_utc_timestamps W date tz_name) = Raise ex).
Proof.
  split; [apply day_range_trace|].
  unfold _day_range_to_utc_timestamps, outcome.
  repeat split.
  - intros ->. eexists. split; reflexivity.
  - intros ex -> ->. reflexivity.
  - intros tz ex -> -> ->. reflexivity.
Qed.

End DayRangeMore.

Lemma flt_nan_left (x : float) : flt S754_nan x = false.
Proof. reflexivity. Qed.

Lemma flt_nan_right (x : float) : flt x S754_nan = false.
Proof. now destruct x. Qed.

Lemma py_min_nan_first (others : list float) : py_min S754_nan others = S754_nan.
Proof.
  unfold py_min. induction others as [|x rest IH]; cbn [fold_left]; [reflexivity|].
  now rewrite flt_nan_right.
Qed.

Lemma py_max_nan_first (others : list float) : py_max S754_nan others = S754_nan.
Proof.
  unfold py_max. induction others as [|x rest IH]; cbn [fold_left]; [reflexivity|].
  now rewrite flt_nan_left.
Qed.

(** X21.  When the first value is a NaN, both [min] and [max] of the
    summary entry are NaN, whatever the other values. *)
Theorem safe_minmax_nan_first (others : list float) :
  _safe_minmax (S754_nan :: others)
  = VDict [("min", VFloat S754_nan); ("max", VFloat S754_nan)].
Proof.
  cbn [_safe_minmax]. now rewrite py_min_nan_first, py_max_nan_first.
Qed.

(** X22.  A NaN after the first value is ignored: the summary entry is the
    one of the values without it. *)
Theorem safe_minmax_nan_later (first : float) (pre post : list float) :
  _safe_minmax (first :: pre ++ S754_nan :: post) = _safe_minmax (first :: pre ++ post).
Proof.
  cbn [_safe_minmax]. unfold py_min, py_max.
  rewrite !fold_left_app. cbn [fold_left].
  now rewrite flt_nan_left, flt_nan_right.
Qed.

Lemma fle_of_not_flt (a b : float) :
  not_nan a = true -> not_nan b = true -> flt b a = false -> fle a b = true.
Proof.
  unfold flt, fle, SFltb, SFleb, SFcompare.
  destruct a as [sa | sa | | sa ma ea], b as [sb | sb | | sb mb eb];
    try destruct sa; try destruct sb;
    try discriminate; try reflexivity;
    change (Pos.compare_cont Eq) with Pos.compare;
    intros _ _ H; cmp_cases; subst; try discriminate; try reflexivity; try lia.
Qed.

(** X23.  For values none of which is a NaN, at least one, the summary
    entry is [{min, max}] where both are among the values, [min <= max],
    and [min <= x <= max] for every value [x]. *)
Theorem safe_minmax_bounds (vals : list float) :
  vals <> [] ->
  forallb not_nan vals = true ->
  exists lo hi,
    _safe_minmax vals = VDict [("min", VFloat lo); ("max", VFloat hi)] /\
    In lo vals /\ In hi vals /\ fle lo hi = true /\
    forall x, In x vals -> fle lo x = true /\ fle x hi = true.
Proof.
  intros Hne Hnan.
  pose proof (safe_minmax_is_minmax vals) as H.
  destruct vals as [|first others]; [congruence|].
  cbn [minmax_of] in H. destruct H as (lo & hi & Heq & Hlo & Hhi & Hall).
  rewrite forallb_forall in Hnan.
  exists lo, hi. repeat split; auto.
  - apply fle_of_not_flt; auto. now destruct (Hall hi Hhi).
  - apply fle_of_not_flt; auto. now destruct (Hall x H).
  - apply fle_of_not_flt; auto. now destruct (Hall x H).
Qed.

(** X24.  [_pick_value] raises in one case only: [OverflowError], when the
    input, or the first value of the input mapping, is an [int] too large
    for a float. *)
Theorem pick_value_raises_only_overflow (x : value) (e : exn) :
  _pick_value x = Raise e ->
  e = Exn "OverflowError" "int too large to convert to float" /\
  exists n, float_of_int n = Raise e /\
            (x = VInt n \/ exists k rest, x = VDict ((k, VInt n) :: rest)).
Proof.
  assert (Hint : forall n, float_of_int n = Raise e ->
                 e = Exn "OverflowError" "int too large to convert to float").
  { intros n. unfold float_of_int.
    destruct (binary_normalize prec emax n 0 false); congruence. }
  destruct x as [| b | n | f | s | l | d]; try discriminate.
  - unfold _pick_value. cbn [is_number float_of_number].
    destruct (float_of_int n) eqn:E; cbn [rbind]; [discriminate|].
    intros [= <-]. split; [eapply Hint; eassumption|]. exists n. auto.
  - destruct d as [|[k v] rest]; [discriminate|].
    rewrite pick_value_mapping.
    destruct v as [| b | n | f | s | l | d']; try discriminate.
    cbn [is_number]. unfold _pick_value. cbn [is_number float_of_number].
    destruct (float_of_int n) eqn:E; cbn [rbind]; [discriminate|].
    intros [= <-]. split; [eapply Hint; eassumption|].
    exists n. split; [assumption|]. right. eauto.
Qed.

Section SeaDayFailures.

Variable W : Env.
Variable self : Tools.
Variables date place timezone : string.
Variable timeout_sec : Z.

(** X25.  When the geocoding request fails in transport or decoding,
    [sea_day] does not raise: it returns the [geocoding] failure whose
    [error] is ["HTTP/parse error: <class>: <message>"], with the geocoding
    result under [geocode], and requests nothing more. *)
Theorem sea_day_geocode_transport (date' : string) (start_utc end_utc : Z)
    (lr l : list event) (ex : exn) :
  storm_key self <> "" ->
  resolves_to W (first_date W date) timezone date' start_utc end_utc lr ->
  strip place <> "" -> google_key self <> "" ->
  _http_get_json W (geocode_url W (strip place) (google_key self) "zh-TW" "tw")
    [] (Z.min 10 timeout_sec) = (l, Raise ex) ->
  let message := VStr ("HTTP/parse error: " ++ exn_class ex ++ ": " ++ exn_msg ex) in
  sea_day W self date place timezone timeout_sec =
    ((lr ++ l)%list,
     Ok (VDict [("ok", VBool false); ("stage", VStr "geocoding");
                ("error", message);
                ("geocode", VDict [("ok", VBool false); ("error", message)])])).
Proof.
  intros Hkey Hres Hp Hg Hget message.
  pose proof (geocode_transport_failure_run W place (google_key self) "zh-TW" "tw"
                (Z.min 10 timeout_sec) l ex Hp Hg Hget) as G.
  now rewrite (sea_day_geocoding_failure_run W self date place timezone timeout_sec
                 _ _ _ _ _ _ Hkey Hres G).
Qed.

(** X26.  When a coordinate of a successful geocoding does not convert to
    a float, [sea_day] returns no envelope: the exception of [float]
    escapes, before any marine-data request. *)
Theorem sea_day_bad_coordinate (date' : string) (start_utc end_utc : Z)
    (lr lg : list event) (lat_v lng_v addr : value) (ex : exn) :
  storm_key self <> "" ->
  resolves_to W (first_date W date) timezone date' start_utc end_utc lr ->
  _google_geocode_place W place (google_key self) "zh-TW" "tw"
    (Z.min 10 timeout_sec) = (lg, Ok (geocode_success lat_v lng_v addr)) ->
  py_float W lat_v = Raise ex \/
  (exists lat, py_float W lat_v = Ok lat /\ py_float W lng_v = Raise ex) ->
  sea_day W self date place timezone timeout_sec = ((lr ++ lg)%list, Raise ex).
Proof.
  intros Hkey Hres Hgeo Hbad.
  destruct (geocode_success_fields lat_v lng_v addr) as (Gok & Glat & Glng).
  run_to_geocode Hkey Hres; rewrite Hgeo; run; rewrite Gok; run;
    cbn [truthy negb]; rewrite Glat, Glng; run;
    (destruct Hbad as [Hlat | (lat & Hlat & Hlng)];
     [ rewrite Hlat | rewrite Hlat; run; rewrite Hlng ]);
    run; rewrite ?app_nil_r, <- ?app_assoc; reflexivity.
Qed.

(** X27.  When the weather response decodes to anything but a mapping,
    [sea_day] still makes the tide request and then raises the
    [AttributeError] of the [get] it attempts on the payload. *)
Theorem sea_day_weather_not_a_mapping (date' : string) (start_utc end_utc : Z)
    (lat lng : float) (lr lg lw : list event) (data : value) :
  storm_key self <> "" ->
  resolves_to W (first_date W date) timezone date' start_utc end_utc lr ->
  geocodes_to W self place timeout_sec lat lng lg ->
  _stormglass_weather W lat lng start_utc end_utc (storm_key self) timeout_sec
    = (lw, Ok data) ->
  (forall d, data <> VDict d) ->
  sea_day W self date place timezone timeout_sec =
    ((lr ++ lg ++ lw ++
      trace (_stormglass_tide_extremes W lat lng start_utc end_utc
               (storm_key self) timeout_sec))%list,
     Raise (attribute_error data "get")).
Proof.
  intros Hkey Hres Hgeo Hweather Hnd.
  assert (Hget : py_get data "hours" = Raise (attribute_error data "get")).
  { destruct data; try reflexivity. now destruct (Hnd d). }
  run_to_weather Hkey Hres Hgeo; rewrite Hweather; run;
    destruct (_stormglass_tide_extremes W lat lng start_utc end_utc
                (storm_key self) timeout_sec) as [lt [payload | ex]];
    run; rewrite Hget; run; cbn [trace fst];
    rewrite ?app_nil_r, <- ?app_assoc; reflexivity.
Qed.

End SeaDayFailures.

Lemma geocode_transport_failure_witness :
  outcome (_google_geocode_place geo_down_env "Kenting" "g-key" "zh-TW" "tw" 10) =
    Ok (VDict [("ok", VBool false);
               ("error", VStr "HTTP/parse error: TimeoutError: timed out")]).
Proof.
  rewrite (geocode_transport_failure geo_down_env "Kenting" "g-key" "zh-TW" "tw" 10
             (trace (_google_geocode_place geo_down_env "Kenting" "g-key"
                       "zh-TW" "tw" 10))
             Demo.timeout); try discriminate; reflexivity.
Defined.

Lemma geocode_status_failure_witness :
  outcome (_google_geocode_place zero_results_env "Kenting" "g-key" "zh-TW" "tw" 10) =
    Ok (VDict [("ok", VBool false); ("query", VStr "Kenting");
               ("status", VStr "ZERO_RESULTS");
               ("error", VStr "Geocoding failed: ZERO_RESULTS")]).
Proof.
  rewrite (geocode_status_failure zero_results_env "Kenting" "g-key" "zh-TW" "tw" 10
             (trace (_google_geocode_place zero_results_env "Kenting" "g-key"
                       "zh-TW" "tw" 10))
             [("results", VList []); ("status", VStr "ZERO_RESULTS")]);
    try discriminate; reflexivity.
Defined.

Lemma geocode_no_results_witness :
  outcome (_google_geocode_place empty_results_env "Kenting" "g-key" "zh-TW" "tw" 10) =
    Ok (VDict [("ok", VBool false); ("query", VStr "Kenting");
               ("status", VStr "OK"); ("error", VStr "No results")]).
Proof.
  rewrite (geocode_no_results empty_results_env "Kenting" "g-key" "zh-TW" "tw" 10
             (trace (_google_geocode_place empty_results_env "Kenting" "g-key"
                       "zh-TW" "tw" 10))
             [("results", VList []); ("status", VStr "OK")]);
    try discriminate; reflexivity.
Defined.

Lemma geocode_not_a_mapping_witness :
  outcome (_google_geocode_place list_geo_env "Kenting" "g-key" "zh-TW" "tw" 10) =
    Raise (Exn "AttributeError" "'list' object has no attribute 'get'").
Proof.
  rewrite (geocode_not_a_mapping list_geo_env "Kenting" "g-key" "zh-TW" "tw" 10
             (trace (_google_geocode_place list_geo_env "Kenting" "g-key"
                       "zh-TW" "tw" 10))
             (VList [])); try discriminate; reflexivity.
Defined.

Lemma geocode_result_shape_witness :
  geocode_result (geocode_success (VFloat demo_lat) (VFloat demo_lng)
                    (VStr "Kenting, Pingtung, Taiwan")).
Proof.
  apply (geocode_result_shape fair_env "Kenting" "g-key" "zh-TW" "tw" 10).
  reflexivity.
Defined.

Lemma sea_day_geocoding_failure_witness :
  outcome (sea_day zero_results_env demo_tools "" "Kenting" "Asia/Taipei" 20) =
    Ok (VDict [("ok", VBool false); ("stage", VStr "geocoding");
               ("error", VStr "Geocoding failed: ZERO_RESULTS");
               ("geocode",
                VDict [("ok", VBool false); ("query", VStr "Kenting");
                       ("status", VStr "ZERO_RESULTS");
                       ("error", VStr "Geocoding failed: ZERO_RESULTS")])]).
Proof.
  rewrite (sea_day_geocoding_failure zero_results_env demo_tools "" "Kenting"
             "Asia/Taipei" 20 "2026-11-04" 1793721600 1793808000
             [CallDayRange "2026-11-04" "Asia/Taipei"]
             (trace (_google_geocode_place zero_results_env "Kenting" "g-key"
                       "zh-TW" "tw" 10))
             [("ok", VBool false); ("query", VStr "Kenting");
              ("status", VStr "ZERO_RESULTS");
              ("error", VStr "Geocoding failed: ZERO_RESULTS")]);
    try discriminate; try reflexivity.
  now apply demo_resolves_first.
Defined.

Lemma sea_day_offline_witness :
  trace (sea_day fair_env demo_tools "" "   " "Asia/Taipei" 20)
    = [CallDayRange "2026-11-04" "Asia/Taipei"] /\
  exists env,
    outcome (sea_day fair_env demo_tools "" "   " "Asia/Taipei" 20) = Ok env /\
    field_is env "ok" (VBool false).
Proof.
  split; [reflexivity|].
  destruct (sea_day_offline fair_env demo_tools "" "   " "Asia/Taipei" 20)
    as (env & Hrun & Hok & _).
  - right; left; reflexivity.
  - exists env. split; assumption.
Defined.

Lemma sea_day_unknown_zone_witness :
  sea_day fair_env demo_tools "2026-11-04" "Kenting" "Mars/Olympus" 20 =
    ([CallDayRange "2026-11-04" "Mars/Olympus";
      CallDayRange "2026-11-04" "Mars/Olympus"],
     Ok (VDict [("ok", VBool false); ("stage", VStr "time_range");
                ("error",
                 VStr "ZoneInfoNotFoundError: No time zone found with key Mars/Olympus")])).
Proof.
  apply (sea_day_unknown_zone fair_env demo_tools "2026-11-04" "Kenting"
           "Mars/Olympus" 20
           (Exn "ZoneInfoNotFoundError" "No time zone found with key Mars/Olympus"));
    [discriminate | reflexivity | reflexivity].
Defined.

Lemma sea_day_blank_date_witness :
  sea_day fair_env demo_tools "  " "Kenting" "Asia/Taipei" 20 =
  sea_day fair_env demo_tools "2026-11-04" "Kenting" "Asia/Taipei" 20.
Proof.
  apply (sea_day_blank_date fair_env demo_tools "  " "Kenting" "Asia/Taipei" 20);
    reflexivity.
Defined.

Lemma sea_day_envelope_shape_witness :
  envelope_keys (envelope_of (sea_day fair_env demo_tools "" "Kenting" "Asia/Taipei" 20))
    = ["ok"; "query"; "location"; "range_utc"; "summary"; "hourly";
       "tide_extremes"; "raw"].
Proof.
  destruct (sea_day_envelope_shape fair_env demo_tools "" "Kenting" "Asia/Taipei" 20
              (envelope_of (sea_day fair_env demo_tools "" "Kenting"
                              "Asia/Taipei" 20)))
    as [[Hfalse _] | [_ Hkeys]].
  - by_running.
  - vm_compute in Hfalse. discriminate Hfalse.
  - exact Hkeys.
Defined.

Lemma sea_day_passthrough_witness :
  exists env,
    outcome (sea_day fair_env demo_tools "" "Kenting" "Asia/Taipei" 20) = Ok env /\
    field env "tide_extremes" = demo_tide /\
    field env "raw" = VDict [("stormglass_weather_meta", demo_meta)].
Proof.
  destruct (sea_day_passthrough fair_env demo_tools "" "Kenting" "Asia/Taipei" 20
              "2026-11-04" 1793721600 1793808000 demo_lat demo_lng
              [CallDayRange "2026-11-04" "Asia/Taipei"]
              (trace (_google_geocode_place fair_env "Kenting" "g-key"
                        "zh-TW" "tw" 10))
              (trace (_stormglass_weather fair_env demo_lat demo_lng
                        1793721600 1793808000 "sg-key" 20))
              (trace (_stormglass_tide_extremes fair_env demo_lat demo_lng
                        1793721600 1793808000 "sg-key" 20))
              [("hours", VList demo_hours); ("meta", demo_meta)]
              demo_tide)
    as (env & Hrun & Htide & Hraw & _).
  - discriminate.
  - now apply demo_resolves_first.
  - apply demo_geocodes.
  - by_running.
  - by_running.
  - by_running.
  - exists env. repeat split; assumption.
Defined.

Lemma sea_day_bad_hour_witness :
  outcome (sea_day bad_hour_env demo_tools "" "Kenting" "Asia/Taipei" 20) =
    Raise (Exn "AttributeError" "'NoneType' object has no attribute 'get'").
Proof.
  apply (sea_day_bad_hour bad_hour_env demo_tools "" "Kenting" "Asia/Taipei" 20
           "2026-11-04" 1793721600 1793808000 demo_lat demo_lng
           [CallDayRange "2026-11-04" "Asia/Taipei"]
           (trace (_google_geocode_place bad_hour_env "Kenting" "g-key"
                     "zh-TW" "tw" 10))
           (trace (_stormglass_weather bad_hour_env demo_lat demo_lng
                     1793721600 1793808000 "sg-key" 20))
           demo_weather_bad_hour [VDict demo_hour] [] VNone).
  - discriminate.
  - now apply demo_resolves_first.
  - apply demo_geocodes.
  - by_running.
  - reflexivity.
  - by_running.
  - discriminate.
Defined.

Lemma hour_times_witness :
  exists record,
    rbind (hour_body fair_env "Asia/Taipei"
             {| hourly := []; wave_vals := []; wind_vals := [];
                water_temp_vals := [] |} (VDict demo_hour))
          (fun acc => Ok (hourly acc)) = Ok [record] /\
    field record "time_utc" = VStr "2026-11-03T16:00:00+00:00" /\
    field record "time_local" = VStr "2026-11-04 00:00:00".
Proof.
  destruct (hour_times fair_env "Asia/Taipei"
              {| hourly := []; wave_vals := []; wind_vals := [];
                 water_temp_vals := [] |} demo_hour)
    as (record & Hrun & Hutc & _ & _ & Hlocal); [reflexivity|].
  exists record. rewrite Hrun. repeat split.
  - exact Hutc.
  - apply Hlocal; reflexivity.
Defined.

Lemma tools_blank_key_witness :
  sea_day blank_key_env (Tools__init__ blank_key_env) "2026-11-04" "Kenting"
    "Asia/Taipei" 20 =
    ([], Ok (VDict [("ok", VBool false);
                    ("error", VStr "Missing STORMGLASS_API_KEY env var")])).
Proof.
  apply (tools_blank_key blank_key_env "2026-11-04" "Kenting" "Asia/Taipei" 20).
  reflexivity.
Defined.

Lemma day_ranges_contiguous_witness :
  outcome (_day_range_to_utc_timestamps quiet_env "2024-03-09" "America/New_York")
    = Ok (1709960400, 1710046800) /\
  outcome (_day_range_to_utc_timestamps quiet_env "2024-03-10" "America/New_York")
    = Ok (1710046800, 1710129600) /\
  1710046800 = 1710046800.
Proof.
  assert (H1 : outcome (_day_range_to_utc_timestamps quiet_env "2024-03-09"
                          "America/New_York") = Ok (1709960400, 1710046800))
    by by_running.
  assert (H2 : outcome (_day_range_to_utc_timestamps quiet_env "2024-03-10"
                          "America/New_York") = Ok (1710046800, 1710129600))
    by by_running.
  split; [exact H1|]. split; [exact H2|].
  apply (day_ranges_contiguous quiet_env "2024-03-09" "2024-03-10"
           "America/New_York" 19791 1709960400 1710046800 1710046800 1710129600);
    try reflexivity; assumption.
Defined.

Lemma day_range_fixed_offset_witness :
  outcome (_day_range_to_utc_timestamps quiet_env "2026-11-04" "Asia/Taipei")
    = Ok (1793721600, 1793808000) /\
  1793721600 = 86400 * 20761 - 28800 /\ 1793808000 = 1793721600 + 86400.
Proof.
  split; [reflexivity|].
  apply (day_range_fixed_offset quiet_env "2026-11-04" "Asia/Taipei" Demo.taipei
           28800 20761 1793721600 1793808000); reflexivity.
Defined.

Lemma day_range_errors_witness :
  outcome (_day_range_to_utc_timestamps quiet_env "tomorrow" "Mars/Olympus") =
    Raise (Exn "ZoneInfoNotFoundError" "No time zone found with key Mars/Olympus").
Proof.
  destruct (day_range_errors quiet_env "tomorrow" "Mars/Olympus")
    as (_ & _ & Hzone & _).
  apply Hzone; reflexivity.
Defined.

Lemma safe_minmax_bounds_witness :
  exists lo hi,
    _safe_minmax [f1_0; f2_5; f0_8]
      = VDict [("min", VFloat lo); ("max", VFloat hi)] /\
    fle lo hi = true /\ lo = f0_8 /\ hi = f2_5.
Proof.
  destruct (safe_minmax_bounds [f1_0; f2_5; f0_8])
    as (lo & hi & Heq & _ & _ & Hle & _); [discriminate | reflexivity |].
  exists lo, hi. repeat split; try assumption.
  - vm_compute in Heq. now injection Heq as <- _.
  - vm_compute in Heq. now injection Heq as _ <-.
Defined.

Lemma pick_value_raises_only_overflow_witness :
  _pick_value (VDict [("sg", VInt (10 ^ 400))])
    = Raise (Exn "OverflowError" "int too large to convert to float") /\
  exists n,
    float_of_int n = Raise (Exn "OverflowError" "int too large to convert to float") /\
    (VDict [("sg", VInt (10 ^ 400))] = VInt n \/
     exists k rest, VDict [("sg", VInt (10 ^ 400))] = VDict ((k, VInt n) :: rest)).
Proof.
  split; [by_running|].
  apply (pick_value_raises_only_overflow (VDict [("sg", VInt (10 ^ 400))])
           (Exn "OverflowError" "int too large to convert to float")).
  by_running.
Defined.

Lemma sea_day_geocode_transport_witness :
  outcome (sea_day geo_down_env demo_tools "" "Kenting" "Asia/Taipei" 20) =
    Ok (VDict [("ok", VBool false); ("stage", VStr "geocoding");
               ("error", VStr "HTTP/parse error: TimeoutError: timed out");
               ("geocode",
                VDict [("ok", VBool false);
                       ("error", VStr "HTTP/parse error: TimeoutError: timed out")])]).
Proof.
  rewrite (sea_day_geocode_transport geo_down_env demo_tools "" "Kenting"
             "Asia/Taipei" 20 "2026-11-04" 1793721600 1793808000
             [CallDayRange "2026-11-04" "Asia/Taipei"]
             (trace (_google_geocode_place geo_down_env "Kenting" "g-key"
                       "zh-TW" "tw" 10))
             Demo.timeout);
    try discriminate; try reflexivity.
  now apply demo_resolves_first.
Defined.

Lemma sea_day_bad_coordinate_witness :
  outcome (sea_day text_lat_env demo_tools "" "Kenting" "Asia/Taipei" 20) =
    Raise (Exn "ValueError" "could not convert string to float: north").
Proof.
  rewrite (sea_day_bad_coordinate text_lat_env demo_tools "" "Kenting"
             "Asia/Taipei" 20 "2026-11-04" 1793721600 1793808000
             [CallDayRange "2026-11-04" "Asia/Taipei"]
             (trace (_google_geocode_place text_lat_env "Kenting" "g-key"
                       "zh-TW" "tw" 10))
             (VStr "north") (VFloat demo_lng) VNone
             (Exn "ValueError" "could not convert string to float: north"));
    try discriminate; try reflexivity.
  - now apply demo_resolves_first.
  - left. reflexivity.
Defined.

Lemma sea_day_weather_not_a_mapping_witness :
  outcome (sea_day list_weather_env demo_tools "" "Kenting" "Asia/Taipei" 20) =
    Raise (Exn "AttributeError" "'list' object has no attribute 'get'").
Proof.
  rewrite (sea_day_weather_not_a_mapping list_weather_env demo_tools "" "Kenting"
             "Asia/Taipei" 20 "2026-11-04" 1793721600 1793808000
             demo_lat demo_lng
             [CallDayRange "2026-11-04" "Asia/Taipei"]
             (trace (_google_geocode_place list_weather_env "Kenting" "g-key"
                       "zh-TW" "tw" 10))
             (trace (_stormglass_weather list_weather_env demo_lat demo_lng
                       1793721600 1793808000 "sg-key" 20))
             (VList []));
    try discriminate; try reflexivity.
  - now apply demo_resolves_first.
  - apply demo_geocodes.
Defined.
